(** * Remote SSH file-system server: path confinement and session management

    A shallow embedding of [main.py] (class [RemoteSSHFileSystemManager],
    the resource handlers of [RemoteSSHFileServer] and the start-up checks
    of [main]) together with the properties of the confinement and session
    layer.

    Conventions of the embedding:
    - a Python [str] is a [string]; every [ascii] stands for one character;
    - a [bytes] object is a [list Byte.byte];
    - the parts of the Python runtime the program calls ([str] methods,
      [os.path.normpath], [os.path.basename], [pathlib.PurePosixPath]) are
      written out after CPython's [posixpath.py] and [pathlib.py];
    - the remote host is an oracle ([remote]) that answers every call the
      program issues; the calls issued are recorded in a log, in order;
    - a coroutine is run to completion: [await asyncio.to_thread(f, x)] is
      the call [f x]. *)

From Stdlib Require Import ZArith Ascii.
From stdpp Require Import gmap strings list pretty.

Local Open Scope Z_scope.

(** ** Python [str] methods *)

Module Str.

(** [s.startswith(p)] *)
Definition startswith (s p : string) : bool := String.prefix p s.

(** [s.split(c)] for a one-character separator [c]. *)
Fixpoint split (c : ascii) (s : string) : list string :=
  match s with
  | EmptyString => [EmptyString]
  | String a s' =>
      if Ascii.eqb a c then EmptyString :: split c s'
      else match split c s' with
           | [] => [String a EmptyString]
           | w :: ws => String a w :: ws
           end
  end.


(** [s.count(c)] for a one-character [c]. *)
Fixpoint count (c : ascii) (s : string) : nat :=
  match s with
  | EmptyString => O
  | String a s' => (if Ascii.eqb a c then 1 else 0)%nat + count c s'
  end.

(** [sep.join(l)] *)
Definition join (sep : string) (l : list string) : string := String.concat sep l.

(** [s.lstrip(c)] for a one-character set [c]. *)
Fixpoint lstrip (c : ascii) (s : string) : string :=
  match s with
  | EmptyString => EmptyString
  | String a s' => if Ascii.eqb a c then lstrip c s' else s
  end.

(** [c * n] *)
Fixpoint repeat (c : ascii) (n : nat) : string :=
  match n with
  | O => EmptyString
  | S n' => String c (repeat c n')
  end.

(** [s[n:]] *)
Fixpoint drop (n : nat) (s : string) : string :=
  match n, s with
  | O, _ => s
  | S _, EmptyString => EmptyString
  | S n', String _ s' => drop n' s'
  end.

(** Characters [str.isspace] accepts, among the first 256 code points. *)
Definition isspace (a : ascii) : bool :=
  let n := nat_of_ascii a in
  ((9 <=? n) && (n <=? 13) || (28 <=? n) && (n <=? 32)
   || (n =? 133) || (n =? 160))%nat.

Fixpoint lstrip_space (s : string) : string :=
  match s with
  | EmptyString => EmptyString
  | String a s' => if isspace a then lstrip_space s' else s
  end.

(** [s.strip()]; only its emptiness is observed by the program. *)
Definition strip_is_empty (s : string) : bool :=
  match lstrip_space s with EmptyString => true | _ => false end.

(** Line boundaries of [str.splitlines] among the first 256 code points. *)
Definition is_linebreak (a : ascii) : bool :=
  let n := nat_of_ascii a in
  ((10 <=? n) && (n <=? 13) || (28 <=? n) && (n <=? 30) || (n =? 133))%nat.

(** [s.splitlines()]: [acc] is the current line, reversed; ["\r\n"] counts
    as one boundary and a final boundary opens no empty line. *)
Fixpoint splitlines_aux (acc : string) (s : string) : list string :=
  match s with
  | EmptyString =>
      match acc with EmptyString => [] | _ => [String.rev acc] end
  | String a s' =>
      if is_linebreak a then
        let rest :=
          match s' with
          | String b s'' =>
              if Ascii.eqb a "013" && Ascii.eqb b "010" then s'' else s'
          | EmptyString => s'
          end in
        String.rev acc :: splitlines_aux EmptyString rest
      else splitlines_aux (String a acc) s'
  end.

Definition splitlines (s : string) : list string := splitlines_aux EmptyString s.

End Str.

(** ** Exceptions and results *)

(** The exception classes the program raises or catches.  Every one of them
    is a subclass of [Exception]; [str(e)] is its message. *)
Inductive exn : Type :=
  | ValueError (msg : string)
  | FileNotFoundError (msg : string)
  | PermissionError (msg : string)
  | AttributeError (msg : string)
  | UnicodeDecodeError (msg : string)
  | SSHException (msg : string)
  | OSError (msg : string)
  | IndexError (msg : string)
  | Exception (msg : string).

Definition exn_str (e : exn) : string :=
  match e with
  | ValueError m | FileNotFoundError m | PermissionError m | AttributeError m
  | UnicodeDecodeError m | SSHException m | OSError m | IndexError m
  | Exception m => m
  end.

(** A call either returns a value or raises. *)
Inductive result (A : Type) : Type :=
  | Ok (a : A)
  | Raise (e : exn).
Arguments Ok {A} a.
Arguments Raise {A} e.

Definition is_ok {A} (r : result A) : bool :=
  match r with Ok _ => true | Raise _ => false end.

(** ** [os.path] on POSIX *)

Module posixpath.

(** One turn of the loop of [normpath]: [new_comps] is the list built so
    far, [comp] the component at hand. *)
Definition normpath_step (initial_slashes : nat)
    (new_comps : list string) (comp : string) : list string :=
  if bool_decide (comp = "") || bool_decide (comp = ".") then new_comps
  else if negb (bool_decide (comp = ".."))
          || (bool_decide (initial_slashes = O) && bool_decide (new_comps = []))
          || bool_decide (last new_comps = Some "..")
       then new_comps ++ [comp]
       else removelast new_comps.

Definition initial_slashes (path : string) : nat :=
  if Str.startswith path "/" then
    if Str.startswith path "//" && negb (Str.startswith path "///")
    then 2%nat else 1%nat
  else O.

(** [os.path.normpath(path)] *)
Definition normpath (path : string) : string :=
  if bool_decide (path = "") then "."
  else
    let slashes := initial_slashes path in
    let comps := Str.split "/" path in
    let new_comps := foldl (normpath_step slashes) [] comps in
    let joined := Str.join "/" new_comps in
    let joined := Str.repeat "/" slashes +:+ joined in
    if bool_decide (joined = "") then "." else joined.

(** [os.path.basename(p)]: what follows the last separator. *)
Definition basename (p : string) : string :=
  default "" (last (Str.split "/" p)).

End posixpath.

(** ** [pathlib.PurePosixPath] *)

(** A parsed path: its root (empty, one slash or two) and the components
    after it.  There is no drive on POSIX. *)
Record PurePath : Type := mkPath {
  path_root : string;
  path_tail : list string
}.

Module pathlib.

(** The POSIX flavour's [splitroot]: the root and what follows it. *)
Definition splitroot (part : string) : string * string :=
  if Str.startswith part "/" then
    let stripped := Str.lstrip "/" part in
    if bool_decide ((String.length part - String.length stripped)%nat = 2%nat)
    then ("//", stripped) else ("/", stripped)
  else ("", part).

(** Components kept by [parse_parts]: neither empty nor a single dot. *)
Definition kept (x : string) : bool :=
  negb (bool_decide (x = "")) && negb (bool_decide (x = ".")).

(** [Path(s)] for a string [s]. *)
Definition Path (s : string) : PurePath :=
  let '(r, rel) := splitroot s in
  mkPath r (filter (λ x, kept x = true) (Str.split "/" rel)).

(** [p / key] for a string [key]: a rooted [key] replaces [p]. *)
Definition truediv (p : PurePath) (key : string) : PurePath :=
  let k := Path key in
  if bool_decide (path_root k = "")
  then mkPath (path_root p) (path_tail p ++ path_tail k)
  else k.

(** [str(p)] *)
Definition str (p : PurePath) : string :=
  let s := path_root p +:+ Str.join "/" (path_tail p) in
  if bool_decide (s = "") then "." else s.

End pathlib.

(** ** Path confinement: [RemoteSSHFileSystemManager._validate_path] *)

(** The argument is annotated [str | Path]. *)
Inductive path_arg : Type :=
  | PStr (s : string)
  | PPath (p : PurePath).

Definition access_denied (base_path : PurePath) : exn :=
  ValueError ("Invalid path: Access denied. Path must be within "
              +:+ pathlib.str base_path).

Definition _validate_path (base_path : PurePath) (path : path_arg)
    : result PurePath :=
  let full_path :=
    match path with
    | PStr s =>
        let norm_path := posixpath.normpath s in
        if negb (Str.startswith s "/")
        then pathlib.truediv base_path norm_path
        else pathlib.Path s
    | PPath p => p
    end in
  let base_str := pathlib.str base_path in
  let path_str := pathlib.str full_path in
  if negb (Str.startswith path_str base_str)
  then Raise (access_denied base_path)
  else Ok full_path.

(** ** The remote host and the Python runtime *)

Definition bytes : Type := list Byte.byte.

(** Keyword arguments of [SSHClient.connect]; [password] and [key_filename]
    are passed only when they are set. *)
Record connect_kwargs : Type := mkKwargs {
  kw_hostname : string;
  kw_port : Z;
  kw_username : string;
  kw_password : option string;
  kw_key_filename : option string
}.

(** What [listdir_attr] and [stat] report about an entry. *)
Record SFTPAttributes : Type := mkAttr {
  filename : string;
  st_mode : Z;
  st_size : Z;
  st_mtime : Z
}.

(** The channel files [exec_command] hands back, read to their end, and
    the exit status the remote command finished with. *)
Record exec_channels : Type := mkChannels {
  stdout_data : bytes;
  stderr_data : bytes;
  exit_status : Z
}.

(** The remote host: its answer to every call the program can issue.
    [connect_leaves] is the transport a failed [SSHClient.connect] leaves on
    the client: none when it fails before a transport exists (name
    resolution, TCP), an inactive one when the negotiation fails, an active
    one when the authentication is refused ([paramiko] assigns the transport
    before it authenticates and does not close it). *)
Record remote : Type := mkHost {
  connect_reply : connect_kwargs → result unit;
  open_sftp_reply : result unit;
  getfo_reply : string → result bytes;
  putfo_reply : string → bytes → result unit;
  listdir_attr_reply : string → result (list SFTPAttributes);
  stat_reply : string → result SFTPAttributes;
  exec_command_reply : string → result exec_channels;
  connect_leaves : connect_kwargs → option bool
}.

(** A host whose connections, when they fail, fail before a transport
    exists. *)
Definition mkRemote (connect_reply : connect_kwargs → result unit)
    (open_sftp_reply : result unit)
    (getfo_reply : string → result bytes)
    (putfo_reply : string → bytes → result unit)
    (listdir_attr_reply : string → result (list SFTPAttributes))
    (stat_reply : string → result SFTPAttributes)
    (exec_command_reply : string → result exec_channels) : remote :=
  mkHost connect_reply open_sftp_reply getfo_reply putfo_reply
         listdir_attr_reply stat_reply exec_command_reply (λ _, None).

(** Library functions of the Python runtime that are taken as given:
    [bytes.decode('utf-8')], [str.encode('utf-8')],
    [mimetypes.guess_type(name)[0]], and the URL type of [Resource.uri]:
    [any_url s] is the text of the URL that type makes of the string [s]
    (percent-encoded where [s] holds characters a URL cannot), or its
    validation error. *)
Record runtime : Type := mkRuntime {
  decode_utf8 : bytes → result string;
  encode_utf8 : string → result bytes;
  guess_type : string → option string;
  any_url : string → result string
}.

(** A call that reaches the remote host. *)
Inductive call : Type :=
  | Connect (kw : connect_kwargs)
  | OpenSftp
  | SftpClose
  | SshClose
  | Getfo (path : string)
  | Putfo (path : string) (data : bytes)
  | ListdirAttr (path : string)
  | Stat (path : string)
  | ExecCommand (command : string).

(** The method of the client object a call goes through. *)
Definition method_of (c : call) : string :=
  match c with
  | Connect _ => "connect"
  | OpenSftp => "open_sftp"
  | SftpClose | SshClose => "close"
  | Getfo _ => "getfo"
  | Putfo _ _ => "putfo"
  | ListdirAttr _ => "listdir_attr"
  | Stat _ => "stat"
  | ExecCommand _ => "exec_command"
  end.

(** What Python raises for a method call on [None]. *)
Definition none_has_no (c : call) : exn :=
  AttributeError ("'NoneType' object has no attribute '" +:+ method_of c +:+ "'").

(** Calls that establish or tear down the session, as opposed to calls on
    the remote file system or shell. *)
Definition is_session_call (c : call) : bool :=
  match c with
  | Connect _ | OpenSftp | SftpClose | SshClose => true
  | _ => false
  end.

(** ** The manager's state *)

(** A [paramiko.SSHClient] object: its identity and its transport, if it has
    one ([Some b]: [get_transport().is_active()] is [b]). *)
Record SSHClient : Type := mkClient {
  client_id : nat;
  transport : option bool
}.

(** A [paramiko.SFTPClient] object: the client whose transport carries its
    channel. *)
Record SFTPClient : Type := mkSftp {
  sftp_over : nat
}.

Record manager : Type := mkManager {
  hostname : string;
  port : Z;
  username : string;
  password : option string;
  key_filename : option string;
  base_path : PurePath;
  _ssh_client : option SSHClient;
  _sftp_client : option SFTPClient
}.

(** [RemoteSSHFileSystemManager.__init__] *)
Definition init_manager (hostname : string) (port : Z) (username : string)
    (password key_filename : option string) (base_path : string) : manager :=
  mkManager hostname port username password key_filename
            (pathlib.Path base_path) None None.

Definition set_ssh_client (c : option SSHClient) (m : manager) : manager :=
  mkManager (hostname m) (port m) (username m) (password m) (key_filename m)
            (base_path m) c (_sftp_client m).

Definition set_sftp_client (f : option SFTPClient) (m : manager) : manager :=
  mkManager (hostname m) (port m) (username m) (password m) (key_filename m)
            (base_path m) (_ssh_client m) f.

(** The condition [remote_connect] tests:
    [c.get_transport() and c.get_transport().is_active()]. *)
Definition transport_is_active (c : SSHClient) : bool :=
  match transport c with Some true => true | _ => false end.

Definition has_active_transport (m : manager) : bool :=
  match _ssh_client m with
  | Some c => transport_is_active c
  | None => false
  end.

(** The file-transfer channel is usable when it runs over the transport of
    the current client and that transport is active. *)
Definition has_active_subchannel (m : manager) : bool :=
  match _ssh_client m, _sftp_client m with
  | Some c, Some f =>
      transport_is_active c && bool_decide (sftp_over f = client_id c)
  | _, _ => false
  end.

(** The machine state: the manager, the calls issued so far (oldest first)
    and the number of client objects created so far. *)
Record state : Type := mkState {
  fs : manager;
  log : list call;
  clients_made : nat
}.

(** ** Computations: state and exceptions *)

Definition M (A : Type) : Type := state → result A * state.

Global Instance M_ret : MRet M := λ A a st, (Ok a, st).

Global Instance M_bind : MBind M := λ A B f m st,
  match m st with
  | (Ok a, st') => f a st'
  | (Raise e, st') => (Raise e, st')
  end.

Definition raise {A} (e : exn) : M A := λ st, (Raise e, st).

Definition lift {A} (r : result A) : M A := λ st, (r, st).

Definition get_fs : M manager := λ st, (Ok (fs st), st).

Definition put_fs (m : manager) : M unit :=
  λ st, (Ok (), mkState m (log st) (clients_made st)).

(** The state once call [c] has gone out. *)
Definition logged (c : call) (st : state) : state :=
  mkState (fs st) (log st ++ [c]) (clients_made st).

Definition issue (c : call) : M unit := λ st, (Ok (), logged c st).

(** [try: body except Exception as e: handler e] *)
Definition try_except {A} (body : M A) (handler : exn → M A) : M A :=
  λ st, match body st with
        | (Ok a, st') => (Ok a, st')
        | (Raise e, st') => handler e st'
        end.

(** [paramiko.SSHClient()]: a fresh client without a transport. *)
Definition new_SSHClient : M SSHClient :=
  λ st, (Ok (mkClient (clients_made st) None),
         mkState (fs st) (log st) (S (clients_made st))).

(** Unfolds the plumbing of [M]. *)
Ltac run :=
  unfold mbind, M_bind, mret, M_ret, lift, raise, get_fs, put_fs, issue,
    logged, try_except, new_SSHClient; simpl.

(** ** [RemoteSSHFileSystemManager] *)

Section Manager.

Variable host : remote.
Variable py : runtime.

(** [if self.password:] and [if self.key_filename:] *)
Definition truthy_str (o : option string) : option string :=
  match o with
  | Some s => if bool_decide (s = "") then None else Some s
  | None => None
  end.

Definition make_connect_kwargs (m : manager) : connect_kwargs :=
  mkKwargs (hostname m) (port m) (username m)
           (truthy_str (password m)) (truthy_str (key_filename m)).

(** [self._ssh_client.connect] with [connect_kwargs]: on success the client
    has an active transport; on failure it has the transport the failed
    attempt leaves, and the exception goes on. *)
Definition ssh_connect (c : SSHClient) (kw : connect_kwargs) : M unit :=
  issue (Connect kw);;
  m ← get_fs;
  match connect_reply host kw with
  | Ok _ => put_fs (set_ssh_client (Some (mkClient (client_id c) (Some true))) m)
  | Raise e =>
      put_fs (set_ssh_client
                (Some (mkClient (client_id c) (connect_leaves host kw))) m);;
      raise e
  end.

(** [self._ssh_client.open_sftp()]: a channel over the client's transport. *)
Definition open_sftp (c : SSHClient) : M SFTPClient :=
  issue OpenSftp;;
  lift (open_sftp_reply host);;
  mret (mkSftp (client_id c)).

(** [remote_connect].  The handler of its [try] prints and re-raises, so
    the exception of [connect] or [open_sftp] leaves as it came. *)
Definition remote_connect : M unit :=
  m ← get_fs;
  if has_active_transport m then mret ()
  else
    c ← new_SSHClient;
    put_fs (set_ssh_client (Some c) m);;
    let connect_kwargs := make_connect_kwargs m in
    try_except
      (ssh_connect c connect_kwargs;;
       f ← open_sftp c;
       m ← get_fs;
       put_fs (set_sftp_client (Some f) m))
      (λ e, raise e).

(** [remote_close] *)
Definition remote_close : M unit :=
  m ← get_fs;
  (match _sftp_client m with
   | Some _ => issue SftpClose;; put_fs (set_sftp_client None m)
   | None => mret ()
   end);;
  m ← get_fs;
  match _ssh_client m with
  | Some _ => issue SshClose;; put_fs (set_ssh_client None m)
  | None => mret ()
  end.

(** A method call on [self._sftp_client]: there must be such an object and
    its channel must be usable for the call to reach the host. *)
Definition on_sftp {A} (c : call) (reply : result A) : M A :=
  m ← get_fs;
  match _sftp_client m with
  | None => raise (none_has_no c)
  | Some _ =>
      if has_active_subchannel m then issue c;; lift reply
      else raise (OSError "Socket is closed")
  end.

(** [self._ssh_client.exec_command(command)] *)
Definition exec_command (command : string) : M exec_channels :=
  m ← get_fs;
  match _ssh_client m with
  | None => raise (none_has_no (ExecCommand command))
  | Some c =>
      if transport_is_active c
      then issue (ExecCommand command);; lift (exec_command_reply host command)
      else raise (SSHException "SSH session not active")
  end.

Definition validate (path : string) : M PurePath :=
  m ← get_fs;
  lift (_validate_path (base_path m) (PStr path)).

(** [mime_type or "text/plain"] *)
Definition mime_or_plain (o : option string) : string :=
  match o with
  | Some s => if bool_decide (s = "") then "text/plain" else s
  | None => "text/plain"
  end.

(** [remote_read_file] *)
Definition remote_read_file (path : string) : M (string * string) :=
  remote_connect;;
  full_path ← validate path;
  try_except
    (data ← on_sftp (Getfo (pathlib.str full_path))
                    (getfo_reply host (pathlib.str full_path));
     content ← lift (decode_utf8 py data);
     let mime_type := guess_type py (pathlib.str full_path) in
     mret (content, mime_or_plain mime_type))
    (λ e, match e with
          | FileNotFoundError _ =>
              raise (FileNotFoundError ("File not found: " +:+ path))
          | PermissionError _ =>
              raise (PermissionError ("Permission denied: " +:+ path))
          | _ => raise (Exception ("Error reading file " +:+ path +:+ ": "
                                   +:+ exn_str e))
          end).

(** [remote_write_file] *)
Definition remote_write_file (path content : string) : M unit :=
  remote_connect;;
  full_path ← validate path;
  try_except
    (data ← lift (encode_utf8 py content);
     on_sftp (Putfo (pathlib.str full_path) data)
             (putfo_reply host (pathlib.str full_path) data))
    (λ e, match e with
          | PermissionError _ =>
              raise (PermissionError ("Permission denied: " +:+ path))
          | _ => raise (Exception ("Error writing file " +:+ path +:+ ": "
                                   +:+ exn_str e))
          end).

Inductive entry_type : Type := directory | file.

(** [stat.S_ISDIR(mode)] *)
Definition S_ISDIR (mode : Z) : bool := Z.land mode 61440 =? 16384.

(** An item of the list [remote_list_directory] returns. *)
Record dir_item : Type := mkItem {
  item_name : string;
  item_path : string;
  item_type : entry_type;
  item_size : option Z;
  item_permissions : Z;
  item_modified : Z
}.

Definition make_item (path : string) (attr : SFTPAttributes) : dir_item :=
  let is_dir := S_ISDIR (st_mode attr) in
  let item_path :=
    if bool_decide (path = "") then filename attr
    else pathlib.str (pathlib.truediv (pathlib.Path path) (filename attr)) in
  mkItem (filename attr) item_path
         (if is_dir then directory else file)
         (if is_dir then None else Some (st_size attr))
         (st_mode attr) (st_mtime attr).

(** [remote_list_directory] *)
Definition remote_list_directory (path : string) : M (list dir_item) :=
  remote_connect;;
  full_path ← (if bool_decide (path = "")
               then m ← get_fs; mret (base_path m)
               else validate path);
  try_except
    (attr_list ← on_sftp (ListdirAttr (pathlib.str full_path))
                         (listdir_attr_reply host (pathlib.str full_path));
     mret (map (make_item path) attr_list))
    (λ e, match e with
          | FileNotFoundError _ =>
              raise (FileNotFoundError ("Directory not found: " +:+ path))
          | PermissionError _ =>
              raise (PermissionError ("Permission denied: " +:+ path))
          | _ => raise (Exception ("Error listing directory " +:+ path
                                   +:+ ": " +:+ exn_str e))
          end).

(** An item of the list [remote_search_files] returns. *)
Record found_item : Type := mkFound {
  found_name : string;
  found_path : string;
  found_type : entry_type;
  found_size : option Z
}.

(** The shell command [remote_search_files] builds. *)
Definition find_command (base_dir pattern : string) : string :=
  "find " +:+ base_dir +:+ " -name '*" +:+ pattern
  +:+ "*' -type f -o -name '*" +:+ pattern +:+ "*' -type d 2>/dev/null".

(** The body of the loop over the lines of the output: [None] when the
    line is skipped or its [stat] fails. *)
Definition search_entry (file_path : string) : M (option found_item) :=
  if Str.strip_is_empty file_path then mret None
  else
    try_except
      (stat_info ← on_sftp (Stat file_path) (stat_reply host file_path);
       let is_dir := S_ISDIR (st_mode stat_info) in
       m ← get_fs;
       let base_str := pathlib.str (base_path m) in
       let rel_path :=
         if bool_decide (base_str ≠ "/")
         then Str.lstrip "/" (Str.drop (String.length base_str) file_path)
         else file_path in
       mret (Some (mkFound (posixpath.basename file_path) rel_path
                           (if is_dir then directory else file)
                           (if is_dir then None
                            else Some (st_size stat_info)))))
      (λ _, mret None).

Fixpoint search_loop (file_list : list string) (results : list found_item)
    : M (list found_item) :=
  match file_list with
  | [] => mret results
  | file_path :: rest =>
      r ← search_entry file_path;
      search_loop rest (match r with
                        | Some it => results ++ [it]
                        | None => results
                        end)
  end.

(** [remote_search_files] *)
Definition remote_search_files (pattern path : string)
    : M (list found_item) :=
  m ← get_fs;
  let base_dir :=
    if bool_decide (path = "") then pathlib.str (base_path m) else path in
  let command := find_command base_dir pattern in
  remote_connect;;
  ch ← exec_command command;
  output ← lift (decode_utf8 py (stdout_data ch));
  search_loop (Str.splitlines output) [].

(** [remote_execute_command] *)
Definition remote_execute_command (command : string) : M (string * string) :=
  remote_connect;;
  ch ← exec_command command;
  let out := stdout_data ch in
  let err := stderr_data ch in
  out_text ← lift (decode_utf8 py out);
  err_text ← lift (decode_utf8 py err);
  mret (out_text, err_text).

(** ** The resource handlers of [RemoteSSHFileServer] *)

(** A [Resource]; [uri] is the text of its URL. *)
Record Resource : Type := mkResource {
  uri : string;
  name : string;
  mimeType : string;
  description : string
}.

(** The string the program builds for the [uri] of an item. *)
Definition resource_uri (hostname path : string) : string :=
  "ssh://" +:+ hostname +:+ "/" +:+ path.

(** [Resource(uri=..., name=..., mimeType=..., description=...)]: the
    [uri] argument is turned into a URL, which can fail. *)
Definition make_resource (hostname : string) (item : dir_item)
    : result Resource :=
  match any_url py (resource_uri hostname (item_path item)) with
  | Raise e => Raise e
  | Ok url =>
      Ok (mkResource
            url
            (item_name item)
            (match item_type item with
             | directory => "inode/directory"
             | file => mime_or_plain (guess_type py (item_name item))
             end)
            ((match item_type item with
              | directory => "Directory"
              | file => "File"
              end) +:+ ": " +:+ item_path item))
  end.

(** The list comprehension of [list_resources]: the resources in order, or
    the exception of the first that cannot be built. *)
Fixpoint make_resources (hostname : string) (items : list dir_item)
    : result (list Resource) :=
  match items with
  | [] => Ok []
  | item :: rest =>
      match make_resource hostname item with
      | Raise e => Raise e
      | Ok r =>
          match make_resources hostname rest with
          | Raise e => Raise e
          | Ok rs => Ok (r :: rs)
          end
      end
  end.

(** [list_resources] *)
Definition list_resources : M (list Resource) :=
  items ← remote_list_directory "";
  m ← get_fs;
  lift (make_resources (hostname m) items).



End Manager.

(** ** Start-up checks of [main] *)

(** Values a configuration can hold: what [json.load] or [argparse] yield. *)
#[local] Unset Elimination Schemes.
Inductive pyval : Type :=
  | VNone
  | VBool (b : bool)
  | VInt (z : Z)
  | VStr (s : string)
  | VList (l : list pyval)
  | VDict (d : list (string * pyval)).
#[local] Set Elimination Schemes.

(** Python's truth value of an object. *)
Definition truthy (v : pyval) : bool :=
  match v with
  | VNone => false
  | VBool b => b
  | VInt z => negb (z =? 0)
  | VStr s => negb (bool_decide (s = ""))
  | VList l => negb (bool_decide (length l = O))
  | VDict d => negb (bool_decide (length d = O))
  end.

(** [d.get(key)] *)
Definition dict_get (d : gmap string pyval) (key : string) : pyval :=
  default VNone (d !! key).

Definition hostname_required : exn :=
  ValueError "SSH 호스트명이 필요합니다. --hostname 또는 --config 옵션을 사용하세요.".
Definition username_required : exn :=
  ValueError "SSH 사용자 이름이 필요합니다. --username 옵션을 사용하세요.".
Definition credential_required : exn :=
  ValueError "SSH 비밀번호 또는 키 파일이 필요합니다. --password 또는 --key-file 옵션을 사용하세요.".

(** The checks [main] runs on [ssh_config] before it builds the server. *)
Definition check_config (ssh_config : gmap string pyval) : result unit :=
  if negb (truthy (dict_get ssh_config "hostname"))
  then Raise hostname_required
  else if negb (truthy (dict_get ssh_config "username"))
  then Raise username_required
  else if negb (truthy (dict_get ssh_config "password"))
          && negb (truthy (dict_get ssh_config "key_filename"))
  then Raise credential_required
  else Ok ().

Arguments remote_connect : simpl never.
Arguments validate : simpl never.
Arguments on_sftp : simpl never.
Arguments exec_command : simpl never.

(** ** The tool handlers of [RemoteSSHFileServer] *)

(** A tool descriptor: its name, its description, the properties of its
    input schema with their types, and the required ones. *)
Record Tool : Type := mkTool {
  tool_name : string;
  tool_description : string;
  tool_properties : list (string * string);
  tool_required : list string
}.

(** [list_tools] *)
Definition list_tools : list Tool :=
  [mkTool "remote_write_file" "원격 파일 작성"
          [("path", "string"); ("content", "string")] ["path"; "content"];
   mkTool "remote_search_files" "원격 파일 검색"
          [("pattern", "string"); ("path", "string")] ["pattern"];
   mkTool "remote_list_directory" "원격 디렉토리 내용 나열"
          [("path", "string")] [];
   mkTool "remote_execute_command" "원격 서버에서 명령어 실행"
          [("command", "string")] ["command"]].

Record TextContent : Type := mkText {
  content_type : string;
  text : string
}.

(** What [call_tool] can raise: [KeyError] from its own subscripts, or an
    exception of the manager. *)
Inductive tool_exn : Type :=
  | KeyError (key : string)
  | Raised (e : exn).

Inductive outcome (A : Type) : Type :=
  | Returned (a : A)
  | Failed (e : tool_exn).
Arguments Returned {A} a.
Arguments Failed {A} e.

(** [arguments[key]]; the input schemas declare every argument a string. *)
Definition subscript (arguments : gmap string string) (key : string)
    : outcome string :=
  match arguments !! key with
  | Some v => Returned v
  | None => Failed (KeyError key)
  end.

(** [arguments.get(key, d)] *)
Definition get_default (arguments : gmap string string) (key d : string)
    : string :=
  default d (arguments !! key).

Definition newline : string := String "010" "".

(** [s or fallback] *)
Definition or_else (s fallback : string) : string :=
  if bool_decide (s = "") then fallback else s.

Definition entry_type_str (t : entry_type) : string :=
  match t with directory => "directory" | file => "file" end.

(** One line of the answer to a search. *)
Definition search_line (r : found_item) : string :=
  "[" +:+ entry_type_str (found_type r) +:+ "] " +:+ found_path r.

(** [r['size'] if r['size'] else 'DIR'], formatted. *)
Definition size_or_DIR (size : option Z) : string :=
  match size with
  | Some n => if n =? 0 then "DIR" else pretty n
  | None => "DIR"
  end.

(** One line of the answer to a listing. *)
Definition list_line (r : dir_item) : string :=
  "[" +:+ entry_type_str (item_type r) +:+ "] " +:+ item_path r
  +:+ " (" +:+ size_or_DIR (item_size r) +:+ ")".

Definition unknown_tool (name : string) : exn :=
  ValueError ("알 수 없는 도구: " +:+ name).

(** Runs a method of the manager and builds the answer from its result. *)
Definition run_tool {A B} (m : M A) (k : A → B) (st : state)
    : outcome B * state :=
  match m st with
  | (Ok a, st') => (Returned (k a), st')
  | (Raise e, st') => (Failed (Raised e), st')
  end.

Section Dispatcher.

Variable host : remote.
Variable py : runtime.

(** [call_tool] *)
Definition call_tool (name : string) (arguments : gmap string string)
    (st : state) : outcome (list TextContent) * state :=
  if bool_decide (name = "remote_write_file") then
    match subscript arguments "path" with
    | Failed e => (Failed e, st)
    | Returned path =>
        match subscript arguments "content" with
        | Failed e => (Failed e, st)
        | Returned content =>
            run_tool (remote_write_file host py path content)
              (λ _, [mkText "text" ("원격 파일 작성 완료: " +:+ path)]) st
        end
    end
  else if bool_decide (name = "remote_search_files") then
    let path := get_default arguments "path" "" in
    match subscript arguments "pattern" with
    | Failed e => (Failed e, st)
    | Returned pattern =>
        run_tool (remote_search_files host py pattern path)
          (λ results,
             [mkText "text"
                (or_else (Str.join newline (map search_line results))
                         "일치하는 파일이 없습니다.")]) st
    end
  else if bool_decide (name = "remote_list_directory") then
    let path := get_default arguments "path" "" in
    run_tool (remote_list_directory host path)
      (λ results,
         [mkText "text"
            (or_else (Str.join newline (map list_line results))
                     "디렉토리가 비어있거나 접근할 수 없습니다.")]) st
  else if bool_decide (name = "remote_execute_command") then
    match subscript arguments "command" with
    | Failed e => (Failed e, st)
    | Returned command =>
        run_tool (remote_execute_command host py command)
          (λ '(out, err),
             [mkText "text"
                ("실행 결과:" +:+ newline +:+ out +:+ newline +:+ newline
                 +:+ "오류(있는 경우):" +:+ newline +:+ err)]) st
    end
  else (Failed (Raised (unknown_tool name)), st).

End Dispatcher.

(** ** [main]: the configuration from the command line, and shutdown *)

(** What [argparse] yields. *)
Record cli_args : Type := mkArgs {
  arg_config : option string;
  arg_hostname : option string;
  arg_port : Z;
  arg_username : option string;
  arg_password : option string;
  arg_key_file : option string;
  arg_base_path : string
}.

(** The [argparse] defaults: port 22, base path [/], the rest unset. *)
Definition default_args : cli_args :=
  mkArgs None None 22 None None None "/".

Definition opt_str (o : option string) : pyval :=
  match o with Some s => VStr s | None => VNone end.

(** [ssh_config] as [main] builds it when [--config] is not given. *)
Definition config_of_args (args : cli_args) : gmap string pyval :=
  <["hostname" := opt_str (arg_hostname args)]>
  (<["port" := VInt (arg_port args)]>
  (<["username" := opt_str (arg_username args)]>
  (<["password" := opt_str (arg_password args)]>
  (<["key_filename" := opt_str (arg_key_file args)]>
  (<["base_path" := VStr (arg_base_path args)]> ∅))))).

(** [try: body finally: final] *)
Definition try_finally {A} (body : M A) (final : M unit) : M A :=
  λ st, match body st with
        | (r, st') =>
            match final st' with
            | (Ok _, st'') => (r, st'')
            | (Raise e, st'') => (Raise e, st'')
            end
        end.

(** The end of [main]: the server runs, and the session is closed on the
    way out.  [run_stdio] is the protocol framework's serving loop, which
    calls the handlers above. *)
Definition serve_and_close (run_stdio : M unit) : M unit :=
  try_finally run_stdio remote_close.

(** ** Properties the specification names *)

(** Containment by path components, on the string forms: equal to the root,
    or the root followed by the separator is a prefix. *)
Definition confined (root_str path_str : string) : bool :=
  bool_decide (path_str = root_str) || Str.startswith path_str (root_str +:+ "/").

(** A component that names an entry: neither empty, nor a dot, nor a
    dot-dot, and free of the separator. *)
Definition is_name (x : string) : bool :=
  pathlib.kept x && negb (bool_decide (x = ".."))
  && bool_decide (Str.count "/" x = O).

(** A list of components made of dot-dot segments followed by names only. *)
Fixpoint dotdots_then_names (l : list string) : bool :=
  match l with
  | [] => true
  | x :: l' =>
      if bool_decide (x = "..") then dotdots_then_names l'
      else forallb is_name (x :: l')
  end.

(** The claim on absolute candidates as it is worded: the candidate is
    taken as it is, so it is accepted exactly when its own text starts with
    the base path's, and it is returned unchanged. *)
Definition taken_as_written (base : PurePath) (s : string) : Prop :=
  is_ok (_validate_path base (PStr s)) = Str.startswith s (pathlib.str base)
  ∧ ∀ p, _validate_path base (PStr s) = Ok p → pathlib.str p = s.


(** A failure that is neither a missing file nor a refused access. *)
Definition other_failure (e : exn) : Prop :=
  match e with
  | FileNotFoundError _ | PermissionError _ => False
  | _ => True
  end.

(** A session is never a transport without its file-transfer channel. *)
Definition session_inv (m : manager) : Prop :=
  has_active_transport m = true → has_active_subchannel m = true.

Definition disconnected (m : manager) : Prop :=
  _ssh_client m = None ∧ _sftp_client m = None.

(** The configuration of the manager is never written. *)
Definition same_config (m m' : manager) : Prop :=
  hostname m' = hostname m ∧ port m' = port m ∧ username m' = username m
  ∧ password m' = password m ∧ key_filename m' = key_filename m
  ∧ base_path m' = base_path m.


(** The claim on start-up as the specification words it: a configuration
    without a host name, without a user name, or without exactly one of the
    two credentials is refused. *)
Definition exactly_one_credential (cfg : gmap string pyval) : bool :=
  xorb (truthy (dict_get cfg "password")) (truthy (dict_get cfg "key_filename")).

Definition refuses_unless_exactly_one (cfg : gmap string pyval) : Prop :=
  truthy (dict_get cfg "hostname") = false
  ∨ truthy (dict_get cfg "username") = false
  ∨ exactly_one_credential cfg = false
  → is_ok (check_config cfg) = false.

(** The state a freshly built manager starts in. *)
Definition start (m : manager) : state := mkState m [] O.

(** ** How the operations report *)

(** The exception [remote_read_file] raises in place of [e]. *)
Definition read_error (path : string) (e : exn) : exn :=
  match e with
  | FileNotFoundError _ => FileNotFoundError ("File not found: " +:+ path)
  | PermissionError _ => PermissionError ("Permission denied: " +:+ path)
  | _ => Exception ("Error reading file " +:+ path +:+ ": " +:+ exn_str e)
  end.

(** The exception [remote_write_file] raises in place of [e]. *)
Definition write_error (path : string) (e : exn) : exn :=
  match e with
  | PermissionError _ => PermissionError ("Permission denied: " +:+ path)
  | _ => Exception ("Error writing file " +:+ path +:+ ": " +:+ exn_str e)
  end.

(** The exception [remote_list_directory] raises in place of [e]. *)
Definition list_error (path : string) (e : exn) : exn :=
  match e with
  | FileNotFoundError _ => FileNotFoundError ("Directory not found: " +:+ path)
  | PermissionError _ => PermissionError ("Permission denied: " +:+ path)
  | _ => Exception ("Error listing directory " +:+ path +:+ ": " +:+ exn_str e)
  end.

(** A line of the output of [find] that is not blank. *)
Definition nonblank (file_path : string) : Prop :=
  Str.strip_is_empty file_path = false.

Global Instance nonblank_dec (file_path : string) : Decision (nonblank file_path).
Proof. unfold nonblank. apply _. Defined.

(** The item a search reports for a line, if any: blank lines and lines
    whose [stat] fails give none. *)
Definition found_of (host : remote) (base_str file_path : string)
    : option found_item :=
  if Str.strip_is_empty file_path then None
  else match stat_reply host file_path with
       | Ok stat_info =>
           Some (mkFound (posixpath.basename file_path)
                   (if bool_decide (base_str ≠ "/")
                    then Str.lstrip "/" (Str.drop (String.length base_str) file_path)
                    else file_path)
                   (if S_ISDIR (st_mode stat_info) then directory else file)
                   (if S_ISDIR (st_mode stat_info) then None
                    else Some (st_size stat_info)))
       | Raise _ => None
       end.

(** ** Sample hosts and configurations *)

Definition sample_attrs : list SFTPAttributes :=
  [mkAttr "a" 33188 10 1700000000; mkAttr "b" 16877 4096 1700000001].

Definition bytes_hi : bytes := [Byte.x68; Byte.x69; Byte.x0a].

Definition bytes_found : bytes :=
  String.list_byte_of_string "/etc/x.conf" ++ [Byte.x0a].

(** A host that accepts the connection and answers every call. *)
Definition friendly : remote :=
  mkRemote (λ _, Ok ()) (Ok ())
           (λ _, Ok bytes_hi) (λ _ _, Ok ())
           (λ _, Ok sample_attrs)
           (λ _, Ok (mkAttr "a" 33188 10 1700000000))
           (λ _, Ok (mkChannels bytes_found bytes_hi 1)).

(** A host that accepts the connection but refuses the SFTP subsystem. *)
Definition sftp_refused : remote :=
  mkRemote (λ _, Ok ()) (Raise (SSHException "Channel closed."))
           (λ _, Ok bytes_hi) (λ _ _, Ok ())
           (λ _, Ok sample_attrs)
           (λ _, Ok (mkAttr "a" 33188 10 1700000000))
           (λ _, Ok (mkChannels [] [] 0)).

(** A host whose [find] reports a file, a blank line and a path that is
    gone by the time it is examined. *)
Definition finder : remote :=
  mkRemote (λ _, Ok ()) (Ok ())
           (λ _, Ok bytes_hi) (λ _ _, Ok ())
           (λ _, Ok sample_attrs)
           (λ p, if bool_decide (p = "/home/u/gone")
                 then Raise (FileNotFoundError "No such file")
                 else Ok (mkAttr "x.txt" 33188 10 1700000000))
           (λ _, Ok (mkChannels
                       (String.list_byte_of_string "/home/u/docs/x.txt"
                        ++ [Byte.x0a; Byte.x0a]
                        ++ String.list_byte_of_string "/home/u/gone"
                        ++ [Byte.x0a])
                       [] 0)).

(** A host whose directories hold an empty file and a larger one. *)
Definition log_dir : remote :=
  mkRemote (λ _, Ok ()) (Ok ()) (λ _, Ok []) (λ _ _, Ok ())
           (λ _, Ok [mkAttr "empty.log" 33188 0 1700000000;
                     mkAttr "big.log" 33188 2048 1700000000])
           (λ _, Raise (FileNotFoundError "")) (λ _, Raise (SSHException "")).

(** A runtime whose codec handles 7-bit text. *)
Definition ascii_decode (b : bytes) : result string :=
  if forallb (λ x, (Byte.to_nat x <? 128)%nat) b
  then Ok (String.string_of_list_byte b)
  else Raise (UnicodeDecodeError "invalid start byte").

Definition hex_digit (n : nat) : ascii :=
  nth n ["0"; "1"; "2"; "3"; "4"; "5"; "6"; "7"; "8"; "9";
         "A"; "B"; "C"; "D"; "E"; "F"]%char "0"%char.

(** The 7-bit characters a URL holds as they are: the printable ones apart
    from the space, the double quote, the angle brackets, the backquote and
    the braces. *)
Definition url_keeps (a : ascii) : bool :=
  let n := nat_of_ascii a in
  ((32 <? n) && (n <? 127)
   && negb (bool_decide (n ∈ [34; 60; 62; 96; 123; 125])))%nat.

Fixpoint percent_encode (s : string) : string :=
  match s with
  | EmptyString => EmptyString
  | String a s' =>
      if url_keeps a then String a (percent_encode s')
      else String "%" (String (hex_digit (nat_of_ascii a / 16))
                         (String (hex_digit (nat_of_ascii a mod 16))
                            (percent_encode s')))
  end.

(** A URL coercion for 7-bit strings: what a URL cannot hold as it is, the
    space among it, is percent-encoded. *)
Definition ascii_url (s : string) : result string :=
  if forallb (λ x, (Byte.to_nat x <? 128)%nat) (String.list_byte_of_string s)
  then Ok (percent_encode s)
  else Raise (ValueError "Input should be a valid URL").

Definition ascii_runtime : runtime :=
  mkRuntime ascii_decode (λ s, Ok (String.list_byte_of_string s)) (λ _, None)
            ascii_url.

(** A host that cannot be reached, and one that refuses the password. *)
Definition unreachable : remote :=
  mkHost (λ _, Raise (OSError "Network is unreachable")) (Ok ())
         (λ _, Ok []) (λ _ _, Ok ()) (λ _, Ok [])
         (λ _, Raise (FileNotFoundError "")) (λ _, Raise (SSHException ""))
         (λ _, None).

Definition password_refused : remote :=
  mkHost (λ _, Raise (SSHException "Authentication failed.")) (Ok ())
         (λ _, Ok []) (λ _ _, Ok ()) (λ _, Ok [])
         (λ _, Raise (FileNotFoundError "")) (λ _, Raise (SSHException ""))
         (λ _, Some true).


Definition home_manager : manager :=
  init_manager "example.org" 22 "alice" (Some "secret") None "/home/u".

Definition both_credentials : gmap string pyval :=
  <["hostname" := VStr "example.org"]>
  (<["username" := VStr "alice"]>
  (<["password" := VStr "secret"]>
  (<["key_filename" := VStr "/home/alice/.ssh/id_rsa"]> ∅))).

(** * Properties *)

(** ** Strings *)

Lemma startswith_refl (s : string) : Str.startswith s s = true.
Proof.
  unfold Str.startswith.
  induction s as [|a s IH]; simpl; [done|].
  destruct (ascii_dec a a) as [_|Hne]; [exact IH | by destruct Hne].
Qed.

Lemma startswith_char (c a : ascii) (r : string) :
  Str.startswith (String a r) (String c "") = Ascii.eqb a c.
Proof.
  unfold Str.startswith. cbn [String.prefix].
  destruct (ascii_dec c a) as [->|Hne].
  - rewrite Ascii.eqb_refl. by destruct r.
  - symmetry. apply Ascii.eqb_neq. congruence.
Qed.

Lemma split_cons_sep (c : ascii) (s : string) :
  Str.split c (String c s) = "" :: Str.split c s.
Proof. simpl. by rewrite Ascii.eqb_refl. Qed.

(** Leading separators only contribute empty components. *)
Lemma filter_kept_lstrip (s : string) :
  filter (λ x, pathlib.kept x = true) (Str.split "/" (Str.lstrip "/" s))
  = filter (λ x, pathlib.kept x = true) (Str.split "/" s).
Proof.
  induction s as [|a s IH]; [done|].
  cbn [Str.lstrip]. destruct (Ascii.eqb a "/") eqn:Ha; [|done].
  apply Ascii.eqb_eq in Ha as ->. rewrite split_cons_sep, IH.
  by rewrite filter_cons_False.
Qed.

Lemma split_sepfree (c : ascii) (s : string) :
  Forall (λ x, Str.count c x = O) (Str.split c s).
Proof.
  induction s as [|a s IH]; simpl; [by repeat constructor|].
  destruct (Ascii.eqb a c) eqn:Ha; [by constructor|].
  destruct (Str.split c s) as [|w ws]; [repeat constructor; simpl; by rewrite Ha|].
  inversion IH as [|? ? Hw Hws]; subst. constructor; [|done].
  simpl. by rewrite Ha.
Qed.

Lemma count_cons_0 (c a : ascii) (x : string) :
  Str.count c (String a x) = O → Ascii.eqb a c = false ∧ Str.count c x = O.
Proof. simpl. destruct (Ascii.eqb a c); [done|]. intros Hx. by split. Qed.

Lemma split_single (c : ascii) (x : string) :
  Str.count c x = O → Str.split c x = [x].
Proof.
  induction x as [|a x IH]; [done|].
  intros [Ha Hx]%count_cons_0. simpl. by rewrite Ha, IH.
Qed.

Lemma split_app_sep (c : ascii) (x r : string) :
  Str.count c x = O →
  Str.split c (x +:+ String c r) = x :: Str.split c r.
Proof.
  induction x as [|a x IH]; simpl.
  - by rewrite Ascii.eqb_refl.
  - destruct (Ascii.eqb a c) eqn:Ha; [done|]. intros Hx. by rewrite IH.
Qed.

(** Splitting undoes joining. *)
Lemma split_join (c : ascii) (l : list string) :
  l ≠ [] → Forall (λ x, Str.count c x = O) l →
  Str.split c (Str.join (String c "") l) = l.
Proof.
  induction l as [|x [|y l] IH]; intros Hne Hall; [done| |].
  - inversion Hall; subst. by apply split_single.
  - inversion Hall as [|? ? Hx Hrest]; subst.
    change (Str.join (String c "") (x :: y :: l))
      with (x +:+ String c (Str.join (String c "") (y :: l))).
    rewrite split_app_sep by done. by rewrite IH.
Qed.

Lemma prefix_app_r (b c : string) : String.prefix b (b +:+ c) = true.
Proof.
  induction b as [|a b IH]; simpl; [by destruct c|].
  destruct (ascii_dec a a) as [_|Hne]; [exact IH | by destruct Hne].
Qed.

Lemma prefix_app (a b c : string) :
  String.prefix b c = true → String.prefix (a +:+ b) (a +:+ c) = true.
Proof.
  intros Hbc. induction a as [|x a IH]; simpl; [done|].
  destruct (ascii_dec x x) as [_|Hne]; [exact IH | by destruct Hne].
Qed.

Lemma join_prefix (sep : string) (l l' : list string) :
  String.prefix (Str.join sep l) (Str.join sep (l ++ l')) = true.
Proof.
  induction l as [|x [|y l] IH].
  - simpl. by destruct (Str.join sep l').
  - destruct l' as [|z l']; [apply (startswith_refl x)|].
    change (Str.join sep ([x] ++ z :: l'))
      with (x +:+ sep +:+ Str.join sep (z :: l')).
    apply prefix_app_r.
  - change (Str.join sep (x :: y :: l))
      with (x +:+ sep +:+ Str.join sep (y :: l)).
    change (Str.join sep ((x :: y :: l) ++ l'))
      with (x +:+ sep +:+ Str.join sep ((y :: l) ++ l')).
    by do 2 apply prefix_app.
Qed.

(** ** [pathlib] *)

Lemma Path_tail (s : string) :
  path_tail (pathlib.Path s)
  = filter (λ x, pathlib.kept x = true) (Str.split "/" s).
Proof.
  unfold pathlib.Path, pathlib.splitroot.
  destruct (Str.startswith s "/"); [|done].
  case_bool_decide; simpl; apply filter_kept_lstrip.
Qed.

Lemma Path_root_absolute (s : string) :
  Str.startswith s "/" = true → path_root (pathlib.Path s) ≠ "".
Proof.
  intros Hs. unfold pathlib.Path, pathlib.splitroot. rewrite Hs.
  by case_bool_decide.
Qed.

Lemma truediv_dot (p : PurePath) : pathlib.truediv p "." = p.
Proof. destruct p as [r t]. unfold pathlib.truediv. simpl. by rewrite app_nil_r. Qed.

Lemma normpath_empty : posixpath.normpath "" = ".".
Proof. reflexivity. Qed.

(** ** Path confinement *)

(** What the check of [_validate_path] does establish: the string form of
    an accepted path starts with the string form of the base path. *)
Lemma validate_path_startswith (base : PurePath) (path : path_arg) (p : PurePath) :
  _validate_path base path = Ok p →
  Str.startswith (pathlib.str p) (pathlib.str base) = true.
Proof.
  unfold _validate_path.
  destruct (Str.startswith _ (pathlib.str base)) eqn:Hpre; simpl; [|done].
  intros [= <-]. exact Hpre.
Qed.

Lemma validate_path_raises (base : PurePath) (path : path_arg) (e : exn) :
  _validate_path base path = Raise e → e = access_denied base.
Proof.
  unfold _validate_path.
  destruct (negb _); [|done]. by intros [= <-].
Qed.

(** ** [os.path.normpath] on relative paths *)

Lemma is_name_inv (x : string) :
  is_name x = true →
  x ≠ ".." ∧ pathlib.kept x = true ∧ Str.count "/" x = O.
Proof.
  unfold is_name. intros [[Hk Hd]%andb_prop Hc]%andb_prop.
  apply negb_true_iff, bool_decide_eq_false in Hd.
  by apply bool_decide_eq_true in Hc.
Qed.

Lemma forallb_snoc {A} (f : A → bool) (l : list A) (x : A) :
  forallb f l = true → f x = true → forallb f (l ++ [x]) = true.
Proof. intros Hl Hx. rewrite forallb_app, Hl. simpl. by rewrite Hx. Qed.

Lemma forallb_removelast {A} (f : A → bool) (l : list A) :
  forallb f l = true → forallb f (removelast l) = true.
Proof.
  induction l as [|x [|y l] IH]; [done..|].
  intros [Hx Hl]%andb_prop. change (removelast (x :: y :: l))
    with (x :: removelast (y :: l)).
  simpl. rewrite Hx. by apply IH.
Qed.

Lemma forallb_last {A} (f : A → bool) (l : list A) (x : A) :
  forallb f l = true → last l = Some x → f x = true.
Proof.
  induction l as [|y [|z l] IH]; [done| |].
  - simpl. intros Hy%andb_prop [= <-]. by destruct Hy.
  - intros [_ Hl]%andb_prop. rewrite last_cons_cons. by apply IH.
Qed.

Lemma shape_snoc_name (l : list string) (x : string) :
  dotdots_then_names l = true → is_name x = true →
  dotdots_then_names (l ++ [x]) = true.
Proof.
  intros Hl Hx. induction l as [|y l IH]; simpl in *.
  - destruct (is_name_inv x Hx) as (Hd & _).
    rewrite bool_decide_false by done. by rewrite Hx.
  - case_bool_decide; [by apply IH|].
    apply andb_prop in Hl as [Hy Hl]. rewrite Hy. by apply forallb_snoc.
Qed.

Lemma shape_snoc_dotdot (l : list string) :
  dotdots_then_names l = true → last l = Some ".." →
  dotdots_then_names (l ++ [".."]) = true.
Proof.
  induction l as [|y l IH]; [done|]. intros Hl Hlast.
  cbn [dotdots_then_names app] in *. case_bool_decide as Hy.
  - destruct l as [|z l]; [done|]. apply IH; [done|].
    by rewrite last_cons_cons in Hlast.
  - by pose proof (forallb_last is_name (y :: l) ".." Hl Hlast).
Qed.

Lemma shape_removelast (l : list string) :
  dotdots_then_names l = true → dotdots_then_names (removelast l) = true.
Proof.
  induction l as [|y [|z l] IH]; [done..|]. intros Hl.
  change (removelast (y :: z :: l)) with (y :: removelast (z :: l)).
  cbn [dotdots_then_names] in *. case_bool_decide; [by apply IH|].
  by apply (forallb_removelast is_name (y :: z :: l)).
Qed.

(** One turn of the loop keeps the shape: dot-dot segments, then names. *)
Lemma normpath_step_shape (l : list string) (comp : string) :
  Str.count "/" comp = O → dotdots_then_names l = true →
  dotdots_then_names (posixpath.normpath_step 0 l comp) = true.
Proof.
  intros Hc Hl. unfold posixpath.normpath_step.
  case_bool_decide as He; [done|]. case_bool_decide as Hd; [done|]. simpl.
  case_bool_decide as Hdd; simpl.
  - subst comp. destruct l as [|y l]; [done|].
    rewrite (bool_decide_false (y :: l = [])) by done.
    cbn [orb andb negb].
    case_bool_decide as Hlast; [|by apply shape_removelast].
    by apply shape_snoc_dotdot.
  - apply shape_snoc_name; [done|]. unfold is_name, pathlib.kept.
    by rewrite !bool_decide_false, bool_decide_true by done.
Qed.

Lemma normpath_loop_shape (comps acc : list string) :
  Forall (λ x, Str.count "/" x = O) comps →
  dotdots_then_names acc = true →
  dotdots_then_names (foldl (posixpath.normpath_step 0) acc comps) = true.
Proof.
  intros Hall. revert acc.
  induction Hall as [|comp comps Hc _ IH]; intros acc Hacc; [done|].
  simpl. apply IH. by apply normpath_step_shape.
Qed.

Lemma shape_components (l : list string) :
  dotdots_then_names l = true →
  Forall (λ x, pathlib.kept x = true ∧ Str.count "/" x = O) l.
Proof.
  induction l as [|y l IH]; [done|]. cbn [dotdots_then_names].
  case_bool_decide as Hy.
  - intros Hl. subst y. constructor; [done | by apply IH].
  - intros Hl. clear IH Hy. induction (y :: l) as [|x l' IH]; [done|].
    apply andb_prop in Hl as [Hx Hl]. constructor; [|by apply IH].
    by destruct (is_name_inv x Hx) as (_ & ? & ?).
Qed.

(** The components a relative path is normalised to. *)
Lemma normpath_relative (s : string) :
  Str.startswith s "/" = false →
  let comps := foldl (posixpath.normpath_step 0) [] (Str.split "/" s) in
  dotdots_then_names comps = true
  ∧ pathlib.Path (posixpath.normpath s) = mkPath "" comps.
Proof.
  intros Hrel comps.
  assert (Hshape : dotdots_then_names comps = true).
  { apply normpath_loop_shape; [apply split_sepfree | done]. }
  split; [done|].
  assert (Hnorm : posixpath.normpath s
                  = if bool_decide (comps = []) then "." else Str.join "/" comps).
  { unfold posixpath.normpath, posixpath.initial_slashes. rewrite Hrel.
    case_bool_decide as Hs; [by subst|]. fold comps. simpl.
    destruct comps as [|x l] eqn:Hcomps; [done|].
    apply shape_components in Hshape.
    inversion Hshape as [|? ? [Hk _] _]; subst.
    rewrite (bool_decide_false (x :: l = [])) by done.
    destruct x as [|a x]; [done|].
    rewrite bool_decide_false; [done|]. by destruct l. }
  rewrite Hnorm. case_bool_decide as Hnil; [by rewrite Hnil|].
  pose proof (shape_components comps Hshape) as Hall.
  assert (Hfree : Forall (λ x, Str.count "/" x = O) comps).
  { eapply Forall_impl; [exact Hall|]. by intros x [_ ?]. }
  assert (Hroot : Str.startswith (Str.join "/" comps) "/" = false).
  { destruct comps as [|x l]; [done|].
    inversion Hall as [|? ? [Hk Hx] _]; subst.
    destruct x as [|a x]; [done|]. apply count_cons_0 in Hx as [Ha _].
    assert (Hhead : ∃ r, Str.join "/" (String a x :: l) = String a r)
      by (destruct l; by eexists).
    destruct Hhead as [r ->]. by rewrite startswith_char. }
  unfold pathlib.Path, pathlib.splitroot. rewrite Hroot. f_equal.
  rewrite split_join by done.
  clear -Hall. induction Hall as [|x l [Hk _] _ IH]; [done|].
  by rewrite filter_cons_True, IH.
Qed.

(** With an absolute base path, a relative candidate is never rejected: the
    result is the base path followed by the normalised components, and these
    may begin with dot-dot segments. *)
Lemma validate_path_relative (base : PurePath) (s : string) :
  path_root base ≠ "" → Str.startswith s "/" = false →
  let comps := foldl (posixpath.normpath_step 0) [] (Str.split "/" s) in
  dotdots_then_names comps = true
  ∧ _validate_path base (PStr s)
    = Ok (mkPath (path_root base) (path_tail base ++ comps)).
Proof.
  intros Hbase Hrel comps.
  destruct (normpath_relative s Hrel) as [Hshape Hpath]. fold comps in Hpath.
  split; [done|].
  unfold _validate_path. rewrite Hrel. simpl.
  unfold pathlib.truediv. rewrite Hpath. simpl.
  assert (Hstr : ∀ t, pathlib.str (mkPath (path_root base) t)
                      = path_root base +:+ Str.join "/" t).
  { intros t. unfold pathlib.str. simpl.
    rewrite bool_decide_false; [done|]. by destruct (path_root base). }
  destruct base as [r t]. simpl in *. rewrite !Hstr.
  unfold Str.startswith. by rewrite prefix_app by apply join_prefix.
Qed.

(** C1.  An accepted path need not lie inside the base path by components:
    with base [/a] the sibling [/ab] is accepted and returned, although its
    string form is neither [/a] nor starts with [/a/]. *)
Theorem validate_path_accepts_sibling :
  _validate_path (pathlib.Path "/a") (PStr "/ab") = Ok (pathlib.Path "/ab")
  ∧ pathlib.str (pathlib.Path "/ab") = "/ab"
  ∧ confined (pathlib.str (pathlib.Path "/a")) (pathlib.str (pathlib.Path "/ab")) = false.
Proof. by vm_compute. Qed.

(** C3.  A relative candidate that begins with a dot-dot segment keeps it:
    with base [/base] the candidate [../etc] is accepted as [/base/../etc],
    a path that resolves to [/etc], outside the base. *)
Theorem validate_path_keeps_leading_dotdot :
  posixpath.normpath "../etc" = "../etc"
  ∧ _validate_path (pathlib.Path "/base") (PStr "../etc")
    = Ok (mkPath "/" ["base"; ".."; "etc"])
  ∧ pathlib.str (mkPath "/" ["base"; ".."; "etc"]) = "/base/../etc"
  ∧ posixpath.normpath "/base/../etc" = "/etc"
  ∧ confined "/base" "/etc" = false.
Proof. by vm_compute. Qed.

Lemma startswith_app (s p : string) :
  Str.startswith s p = true ↔ ∃ rest, s = p +:+ rest.
Proof.
  unfold Str.startswith. revert s. induction p as [|a p IH]; intros s.
  - split; [intros _; by exists s | intros _; by destruct s].
  - destruct s as [|b s]; simpl.
    + split; [done | by intros [rest ?]].
    + destruct (ascii_dec a b) as [->|Hne].
      * rewrite IH. split; intros [rest Hrest]; exists rest.
        -- change (String b p +:+ rest) with (String b (p +:+ rest)). by f_equal.
        -- change (String b p +:+ rest) with (String b (p +:+ rest)) in Hrest.
           by injection Hrest.
      * split; [done|]. intros [rest Hrest].
        change (String a p +:+ rest) with (String a (p +:+ rest)) in Hrest.
        injection Hrest as Hab _. by destruct Hne.
Qed.

Lemma lstrip_length (c : ascii) (s : string) :
  (String.length (Str.lstrip c s) ≤ String.length s)%nat.
Proof.
  induction s as [|a s IH]; simpl; [done|].
  destruct (Ascii.eqb a c); simpl; lia.
Qed.

Lemma startswith_nil (s : string) : Str.startswith s "" = true.
Proof. by destruct s. Qed.

Lemma startswith_cons (a b : ascii) (s p : string) :
  Str.startswith (String a s) (String b p)
  = Ascii.eqb a b && Str.startswith s p.
Proof.
  unfold Str.startswith. cbn [String.prefix].
  destruct (ascii_dec b a) as [->|Hne].
  - by rewrite Ascii.eqb_refl.
  - assert (Hab : Ascii.eqb a b = false) by (apply Ascii.eqb_neq; congruence).
    by rewrite Hab.
Qed.

(** The root [Path] gives an absolute string: two slashes when it begins
    with exactly two, one otherwise. *)
Lemma Path_root (s : string) :
  Str.startswith s "/" = true →
  path_root (pathlib.Path s)
  = (if Str.startswith s "//" && negb (Str.startswith s "///")
     then "//" else "/").
Proof.
  intros Hs. unfold pathlib.Path, pathlib.splitroot. rewrite Hs.
  destruct s as [|a s]; [done|]. rewrite startswith_char in Hs.
  apply Ascii.eqb_eq in Hs as ->.
  change "//" with (String "/" (String "/" "")).
  change "///" with (String "/" (String "/" (String "/" ""))).
  rewrite !startswith_cons, Ascii.eqb_refl. cbn [andb].
  destruct s as [|b s].
  { simpl. done. }
  rewrite !startswith_cons, startswith_nil.
  destruct (Ascii.eqb b "/") eqn:Hb; cbn [andb negb].
  - apply Ascii.eqb_eq in Hb as ->.
    destruct s as [|c s]; [done|].
    rewrite startswith_cons, startswith_nil.
    destruct (Ascii.eqb c "/") eqn:Hc; cbn [andb negb].
    + apply Ascii.eqb_eq in Hc as ->.
      pose proof (lstrip_length "/" s) as Hlen.
      change (Str.lstrip "/" (String "/" (String "/" (String "/" s))))
        with (Str.lstrip "/" s).
      by rewrite bool_decide_false by (simpl; lia).
    + assert (Hstrip : Str.lstrip "/" (String "/" (String "/" (String c s)))
                       = String c s) by (simpl; by rewrite Hc).
      rewrite Hstrip. by rewrite bool_decide_true by (simpl; lia).
  - assert (Hstrip : Str.lstrip "/" (String "/" (String b s)) = String b s)
      by (simpl; by rewrite Hb).
    rewrite Hstrip. by rewrite bool_decide_false by (simpl; lia).
Qed.

(** C10 as it is worded fails: under the base [/base] the candidate
    [/./base//x/.] does not start with [/base], yet it is accepted, and as
    [/base/x]: the candidate is parsed, and the test reads the parsed
    path. *)
Lemma absolute_candidate_is_parsed :
  ¬ taken_as_written (pathlib.Path "/base") "/./base//x/.".
Proof.
  intros [Hcheck _]. vm_compute in Hcheck. discriminate Hcheck.
Qed.

(** C10, amended.  For a candidate that begins with the separator the form
    normalised by [os.path.normpath] is not used: the result is
    [Path(candidate)], whose root is one slash (two when the candidate
    begins with exactly two) and whose components are the candidate's own
    without the empty and the single-dot ones, every dot-dot segment kept;
    the candidate is accepted exactly when the text of that parsed path
    begins with the text of the base path. *)
Theorem validate_path_absolute_parsed (base : PurePath) (s : string) :
  Str.startswith s "/" = true →
  ((∃ rest, pathlib.str (pathlib.Path s) = pathlib.str base +:+ rest) →
   _validate_path base (PStr s) = Ok (pathlib.Path s))
  ∧ ((¬ ∃ rest, pathlib.str (pathlib.Path s) = pathlib.str base +:+ rest) →
     _validate_path base (PStr s) = Raise (access_denied base))
  ∧ path_root (pathlib.Path s)
    = (if Str.startswith s "//" && negb (Str.startswith s "///")
       then "//" else "/")
  ∧ path_tail (pathlib.Path s)
    = filter (λ x, pathlib.kept x = true) (Str.split "/" s)
  ∧ filter (λ x, x = "..") (path_tail (pathlib.Path s))
    = filter (λ x, x = "..") (Str.split "/" s)
  ∧ pathlib.str (pathlib.Path s)
    = path_root (pathlib.Path s) +:+ Str.join "/" (path_tail (pathlib.Path s)).
Proof.
  intros Hs.
  assert (Hval : _validate_path base (PStr s)
                 = if Str.startswith (pathlib.str (pathlib.Path s)) (pathlib.str base)
                   then Ok (pathlib.Path s) else Raise (access_denied base)).
  { unfold _validate_path. rewrite Hs. simpl.
    by destruct (Str.startswith _ (pathlib.str base)). }
  split_and!.
  - intros Hpre. apply startswith_app in Hpre. by rewrite Hval, Hpre.
  - intros Hpre. rewrite Hval.
    destruct (Str.startswith _ (pathlib.str base)) eqn:Hstart; [|done].
    apply startswith_app in Hstart. by destruct Hpre.
  - by apply Path_root.
  - apply Path_tail.
  - rewrite Path_tail. rewrite list_filter_filter.
    apply list_filter_iff. intros x. split; [by intros [? ?]|].
    intros ->. done.
  - unfold pathlib.str. case_bool_decide as His; [|done].
    apply Path_root_absolute in Hs.
    destruct (path_root (pathlib.Path s)); [done|discriminate His].
Qed.

Lemma validate_path_absolute_parsed_witness :
  Str.startswith "/base/../etc" "/" = true
  ∧ _validate_path (pathlib.Path "/base") (PStr "/base/../etc")
    = Ok (mkPath "/" ["base"; ".."; "etc"])
  ∧ _validate_path (pathlib.Path "/base") (PStr "/etc/../base")
    = Raise (access_denied (pathlib.Path "/base"))
  ∧ filter (λ x, x = "..") (path_tail (pathlib.Path "/base/../etc")) = [".."].
Proof.
  pose proof (validate_path_absolute_parsed
                (pathlib.Path "/base") "/base/../etc" eq_refl)
    as (Hacc & _ & _ & _ & Hdots & _).
  pose proof (validate_path_absolute_parsed
                (pathlib.Path "/base") "/etc/../base" eq_refl)
    as (_ & Hrej & _).
  split; [reflexivity|]. split; [|split; [|exact Hdots]].
  - apply Hacc. by exists "/../etc".
  - apply Hrej. intros [rest Hrest]. vm_compute in Hrest. discriminate Hrest.
Defined.

(** The empty candidate is confined to the base path itself. *)
Lemma validate_path_empty (base : PurePath) :
  _validate_path base (PStr "") = Ok base.
Proof.
  unfold _validate_path. simpl. rewrite normpath_empty, truediv_dot.
  by rewrite startswith_refl.
Qed.

(** ** The session *)

(** [remote_connect] case by case. *)
Lemma remote_connect_eq (host : remote) (st : state) :
  remote_connect host st =
  if has_active_transport (fs st) then (Ok (), st)
  else
    let n := clients_made st in
    let kw := make_connect_kwargs (fs st) in
    let connected := set_ssh_client (Some (mkClient n (Some true))) (fs st) in
    match connect_reply host kw with
    | Raise e =>
        (Raise e,
         mkState (set_ssh_client (Some (mkClient n (connect_leaves host kw)))
                    (fs st))
                 (log st ++ [Connect kw]) (S n))
    | Ok _ =>
        match open_sftp_reply host with
        | Raise e =>
            (Raise e, mkState connected (log st ++ [Connect kw; OpenSftp]) (S n))
        | Ok _ =>
            (Ok (), mkState (set_sftp_client (Some (mkSftp n)) connected)
                            (log st ++ [Connect kw; OpenSftp]) (S n))
        end
    end.
Proof.
  unfold remote_connect, ssh_connect, open_sftp. run.
  destruct (has_active_transport (fs st)); [done|].
  destruct (connect_reply host _) as [[]|e]; simpl; [|done].
  destruct (open_sftp_reply host) as [[]|e]; simpl;
    by rewrite <- app_assoc.
Qed.

(** [remote_close] in one equation: it never raises, forgets both objects,
    and closes the channel before the client. *)
Lemma remote_close_eq (st : state) :
  remote_close st =
  (Ok (),
   mkState (set_ssh_client None (set_sftp_client None (fs st)))
           (log st
            ++ (if _sftp_client (fs st) is Some _ then [SftpClose] else [])
            ++ (if _ssh_client (fs st) is Some _ then [SshClose] else []))
           (clients_made st)).
Proof.
  destruct st as [[h p u pw k b [c|] [f|]] l n]; unfold remote_close; run;
    rewrite ?app_nil_r, <- ?app_assoc; reflexivity.
Qed.

Lemma remote_connect_ok_transport (host : remote) (st st1 : state) :
  remote_connect host st = (Ok (), st1) → has_active_transport (fs st1) = true.
Proof.
  rewrite remote_connect_eq.
  destruct (has_active_transport (fs st)) eqn:Hact; [by intros [= <-]|].
  simpl. destruct (connect_reply host _); [|done].
  destruct (open_sftp_reply host); [|done].
  by intros [= <-].
Qed.

(** Under the invariant a successful [remote_connect] leaves a usable
    file-transfer channel. *)
Lemma remote_connect_ok_subchannel (host : remote) (st st1 : state) :
  session_inv (fs st) →
  remote_connect host st = (Ok (), st1) → has_active_subchannel (fs st1) = true.
Proof.
  intros Hinv. rewrite remote_connect_eq.
  destruct (has_active_transport (fs st)) eqn:Hact.
  - intros [= <-]. by apply Hinv.
  - simpl. destruct (connect_reply host _); [|done].
    destruct (open_sftp_reply host); [|done].
    intros [= <-]. unfold has_active_subchannel. simpl. by rewrite bool_decide_true.
Qed.

Lemma remote_connect_config (host : remote) (st : state) :
  same_config (fs st) (fs (snd (remote_connect host st))).
Proof.
  rewrite remote_connect_eq.
  destruct (has_active_transport (fs st)); [done|].
  simpl. destruct (connect_reply host _); [|done].
  by destruct (open_sftp_reply host).
Qed.

(** [remote_connect] only adds calls that set the session up. *)
Lemma remote_connect_log (host : remote) (st : state) :
  ∃ l, log (snd (remote_connect host st)) = log st ++ l
       ∧ forallb is_session_call l = true.
Proof.
  rewrite remote_connect_eq.
  destruct (has_active_transport (fs st)).
  { exists []. by rewrite app_nil_r. }
  simpl. destruct (connect_reply host _); [|by eexists].
  destruct (open_sftp_reply host); by eexists.
Qed.

(** The invariant survives [remote_connect] whenever the host grants the
    SFTP subsystem and a connection that fails leaves no active transport. *)
Lemma remote_connect_inv (host : remote) (st : state) :
  is_ok (open_sftp_reply host) = true →
  (is_ok (connect_reply host (make_connect_kwargs (fs st))) = false →
   connect_leaves host (make_connect_kwargs (fs st)) ≠ Some true) →
  session_inv (fs st) → session_inv (fs (snd (remote_connect host st))).
Proof.
  intros Hsftp Hfail Hinv. rewrite remote_connect_eq.
  destruct (has_active_transport (fs st)) eqn:Hact; [done|].
  simpl. destruct (connect_reply host _).
  - destruct (open_sftp_reply host); [|done].
    intros _. unfold has_active_subchannel. simpl. by rewrite bool_decide_true.
  - specialize (Hfail eq_refl). unfold session_inv, has_active_transport.
    simpl. unfold transport_is_active. simpl.
    destruct (connect_leaves host _) as [[]|]; done.
Qed.

Lemma remote_close_inv (st : state) : session_inv (fs (snd (remote_close st))).
Proof. rewrite remote_close_eq. done. Qed.

(** When the host accepts the connection and then refuses the SFTP
    subsystem, [remote_connect] leaves an active transport without a
    channel. *)
Lemma remote_connect_sftp_failure (host : remote) (st : state) (e : exn) :
  has_active_transport (fs st) = false →
  connect_reply host (make_connect_kwargs (fs st)) = Ok () →
  open_sftp_reply host = Raise e →
  let st1 := snd (remote_connect host st) in
  fst (remote_connect host st) = Raise e
  ∧ has_active_transport (fs st1) = true
  ∧ _sftp_client (fs st1) = _sftp_client (fs st)
  ∧ (_sftp_client (fs st) = None → ¬ session_inv (fs st1))
  ∧ remote_connect host st1 = (Ok (), st1).
Proof.
  intros Hact Hconn Hsftp. simpl.
  rewrite (remote_connect_eq host st), Hact. simpl. rewrite Hconn, Hsftp. simpl.
  split_and!; try done.
  intros Hnone Hinv. unfold session_inv, has_active_subchannel in Hinv.
  simpl in Hinv. rewrite Hnone in Hinv. by specialize (Hinv eq_refl).
Qed.

(** C4.  From the initial state, on a host that accepts the connection and
    refuses the SFTP subsystem, [remote_connect] raises and leaves an active
    transport without a file-transfer channel; the invariant is lost, and
    the next [remote_connect] returns at once without opening a channel. *)
Theorem remote_connect_breaks_session_inv :
  let st0 := start home_manager in
  let st1 := snd (remote_connect sftp_refused st0) in
  session_inv (fs st0)
  ∧ fst (remote_connect sftp_refused st0) = Raise (SSHException "Channel closed.")
  ∧ has_active_transport (fs st1) = true
  ∧ _sftp_client (fs st1) = None
  ∧ has_active_subchannel (fs st1) = false
  ∧ ¬ session_inv (fs st1)
  ∧ remote_connect sftp_refused st1 = (Ok (), st1)
  ∧ fst (remote_read_file sftp_refused ascii_runtime "a.txt" st1)
    = Raise (Exception
               "Error reading file a.txt: 'NoneType' object has no attribute 'getfo'").
Proof.
  split_and!; try by vm_compute.
  intros Hinv. by specialize (Hinv eq_refl).
Qed.

(** C8.  [remote_close] returns normally from every state, closes the
    channel and then the client, and leaves the manager disconnected; a
    second [remote_close], or one before any connection, issues no call and
    changes nothing; and a later [remote_connect] on an accepting host sets
    up a new transport with its channel. *)
Theorem remote_close_idempotent_total (host : remote) (st : state) :
  let st' := snd (remote_close st) in
  fst (remote_close st) = Ok ()
  ∧ disconnected (fs st')
  ∧ log st' = log st
              ++ (if _sftp_client (fs st) is Some _ then [SftpClose] else [])
              ++ (if _ssh_client (fs st) is Some _ then [SshClose] else [])
  ∧ remote_close st' = (Ok (), st')
  ∧ (disconnected (fs st) → remote_close st = (Ok (), st))
  ∧ (connect_reply host (make_connect_kwargs (fs st)) = Ok () →
     open_sftp_reply host = Ok () →
     ∃ st'', remote_connect host st' = (Ok (), st'')
             ∧ has_active_transport (fs st'') = true
             ∧ has_active_subchannel (fs st'') = true
             ∧ log st'' = log st' ++ [Connect (make_connect_kwargs (fs st)); OpenSftp]).
Proof.
  simpl. rewrite !remote_close_eq. simpl. split_and!; try done.
  - by rewrite !app_nil_r.
  - intros [Hssh Hsftp]. destruct st as [[h p u pw k b c f] l n].
    simpl in *. subst. by rewrite app_nil_r.
  - intros Hconn Hsftp. eexists. rewrite remote_connect_eq. simpl.
    unfold make_connect_kwargs in *. simpl. rewrite Hconn, Hsftp.
    split; [reflexivity|]. unfold has_active_subchannel. simpl.
    by rewrite bool_decide_true.
Qed.

Lemma remote_close_idempotent_total_witness :
  let st := snd (remote_connect friendly (start home_manager)) in
  let st' := snd (remote_close st) in
  connect_reply friendly (make_connect_kwargs (fs st)) = Ok ()
  ∧ open_sftp_reply friendly = Ok ()
  ∧ log st' = log st ++ [SftpClose; SshClose]
  ∧ remote_close (start home_manager) = (Ok (), start home_manager)
  ∧ ∃ st'', remote_connect friendly st' = (Ok (), st'')
            ∧ has_active_subchannel (fs st'') = true.
Proof.
  pose proof (remote_close_idempotent_total friendly
                (snd (remote_connect friendly (start home_manager))))
    as (_ & _ & Hlog & _ & _ & Hre).
  pose proof (remote_close_idempotent_total friendly (start home_manager))
    as (_ & _ & _ & _ & Hnever & _).
  simpl. split; [reflexivity|]. split; [reflexivity|].
  split; [exact Hlog|]. split; [apply Hnever; by split|].
  destruct (Hre eq_refl eq_refl) as (st'' & H1 & _ & H3 & _).
  exists st''. by split.
Defined.

(** ** Operations *)

Lemma on_sftp_live {A} (c : call) (reply : result A) (st : state) :
  has_active_subchannel (fs st) = true →
  on_sftp c reply st = (reply, logged c st).
Proof.
  intros Hlive. unfold on_sftp. run. rewrite Hlive.
  unfold has_active_subchannel in Hlive.
  destruct (_ssh_client (fs st)); [|done].
  destruct (_sftp_client (fs st)); [|done].
  by destruct reply.
Qed.

Lemma exec_command_live (host : remote) (command : string) (st : state) :
  has_active_transport (fs st) = true →
  exec_command host command st
  = (exec_command_reply host command, logged (ExecCommand command) st).
Proof.
  intros Hlive. unfold exec_command. run.
  unfold has_active_transport in Hlive.
  destruct (_ssh_client (fs st)); [|done]. rewrite Hlive. simpl.
  by destruct (exec_command_reply host command).
Qed.

(** *** Rejected paths *)

Lemma validate_after_connect (host : remote) (path : string) (st : state) :
  validate path (snd (remote_connect host st))
  = (_validate_path (base_path (fs st)) (PStr path), snd (remote_connect host st)).
Proof.
  unfold validate. run.
  by destruct (remote_connect_config host st) as (_ & _ & _ & _ & _ & ->).
Qed.

(** When the path is rejected, reading, writing and listing stop in the
    state [remote_connect] left: nothing is asked of the file system. *)
Lemma rejected_path_stops (host : remote) (py : runtime) (path : string)
    (st : state) (e : exn) :
  _validate_path (base_path (fs st)) (PStr path) = Raise e →
  snd (remote_read_file host py path st) = snd (remote_connect host st)
  ∧ (∀ content,
       snd (remote_write_file host py path content st) = snd (remote_connect host st))
  ∧ (path ≠ "" →
     snd (remote_list_directory host path st) = snd (remote_connect host st))
  ∧ is_ok (fst (remote_read_file host py path st)) = false.
Proof.
  intros Hrej.
  pose proof (validate_after_connect host path st) as Hval.
  unfold remote_read_file, remote_write_file, remote_list_directory.
  unfold mbind, M_bind.
  destruct (remote_connect host st) as [[[]|e1] st1]; [|done].
  cbn [snd] in Hval. split_and!; try (by rewrite Hval, Hrej).
  intros Hne. rewrite bool_decide_false by done. by rewrite Hval, Hrej.
Qed.

Lemma rejected_path_no_file_call (host : remote) (py : runtime) (path : string)
    (st : state) (e : exn) :
  _validate_path (base_path (fs st)) (PStr path) = Raise e →
  ∃ l, forallb is_session_call l = true
       ∧ log (snd (remote_read_file host py path st)) = log st ++ l
       ∧ (∀ content,
            log (snd (remote_write_file host py path content st)) = log st ++ l)
       ∧ (path ≠ "" →
          log (snd (remote_list_directory host path st)) = log st ++ l).
Proof.
  intros Hrej.
  destruct (rejected_path_stops host py path st e Hrej) as (Hr & Hw & Hl & _).
  destruct (remote_connect_log host st) as (l & Hlog & Hsess).
  exists l. split; [done|]. rewrite Hr. split; [done|].
  split; [intros content; by rewrite Hw | intros Hne; by rewrite Hl].
Qed.

(** *** Searching *)

Lemma search_entry_log (host : remote) (file_path : string) (st : state) :
  ∃ l, log (snd (search_entry host file_path st)) = log st ++ l.
Proof.
  unfold search_entry. destruct (Str.strip_is_empty file_path).
  { exists []. by rewrite app_nil_r. }
  unfold on_sftp. run.
  destruct (_sftp_client (fs st)); [|exists []; by rewrite app_nil_r].
  destruct (has_active_subchannel (fs st)); [|exists []; by rewrite app_nil_r].
  simpl. destruct (stat_reply host file_path); by eexists.
Qed.

Lemma search_loop_log (host : remote) (file_list : list string)
    (results : list found_item) (st : state) :
  ∃ l, log (snd (search_loop host file_list results st)) = log st ++ l.
Proof.
  revert results st.
  induction file_list as [|file_path rest IH]; intros results st.
  { exists []. by rewrite app_nil_r. }
  cbn [search_loop]. unfold mbind, M_bind.
  destruct (search_entry_log host file_path st) as (l1 & Hl1).
  destruct (search_entry host file_path st) as [[r|e] st1]; simpl in *.
  - destruct (IH (match r with Some it => results ++ [it] | None => results end) st1)
      as (l2 & Hl2).
    exists (l1 ++ l2). by rewrite Hl2, Hl1, app_assoc.
  - by exists l1.
Qed.

(** With a non-empty [path] argument the search runs [find] on that very
    argument, whatever [_validate_path] would say of it. *)
Lemma remote_search_files_issues_find (host : remote) (py : runtime)
    (pattern path : string) (st st1 : state) :
  path ≠ "" →
  remote_connect host st = (Ok (), st1) →
  ∃ l, log (snd (remote_search_files host py pattern path st))
       = log st1 ++ ExecCommand (find_command path pattern) :: l.
Proof.
  intros Hne Hconn. unfold remote_search_files. run.
  rewrite bool_decide_false by done. rewrite Hconn.
  rewrite exec_command_live by (by eapply remote_connect_ok_transport).
  destruct (exec_command_reply host _) as [ch|e]; simpl; [|by exists []].
  destruct (decode_utf8 py (stdout_data ch)) as [output|e]; simpl; [|by exists []].
  destruct (search_loop_log host (Str.splitlines output) []
              (logged (ExecCommand (find_command path pattern)) st1)) as (l & Hl).
  exists l. rewrite Hl. simpl. by rewrite <- app_assoc.
Qed.

(** C2.  With base path [/home/u] the path [/etc] is rejected by
    [_validate_path], and listing it stops after the connection is set up;
    searching under it nevertheless runs [find /etc ...] on the host and
    stats what it reports. *)
Theorem search_files_skips_confinement :
  let st0 := start home_manager in
  let kw := mkKwargs "example.org" 22 "alice" (Some "secret") None in
  _validate_path (base_path home_manager) (PStr "/etc")
  = Raise (access_denied (base_path home_manager))
  ∧ remote_list_directory friendly "/etc" st0
    = (Raise (access_denied (base_path home_manager)),
       snd (remote_connect friendly st0))
  ∧ log (snd (remote_list_directory friendly "/etc" st0)) = [Connect kw; OpenSftp]
  ∧ log (snd (remote_search_files friendly ascii_runtime "x" "/etc" st0))
    = [Connect kw; OpenSftp;
       ExecCommand "find /etc -name '*x*' -type f -o -name '*x*' -type d 2>/dev/null";
       Stat "/etc/x.conf"]
  ∧ is_ok (fst (remote_search_files friendly ascii_runtime "x" "/etc" st0)) = true.
Proof. by vm_compute. Qed.

(** C7.  [remote_execute_command] hands the command unchanged to
    [exec_command], with no path check, and returns both streams decoded,
    whatever the exit status of the command. *)
Theorem remote_execute_command_passthrough (host : remote) (py : runtime)
    (command : string) (st st1 : state) (ch : exec_channels)
    (out_text err_text : string) :
  remote_connect host st = (Ok (), st1) →
  exec_command_reply host command = Ok ch →
  decode_utf8 py (stdout_data ch) = Ok out_text →
  decode_utf8 py (stderr_data ch) = Ok err_text →
  remote_execute_command host py command st
  = (Ok (out_text, err_text), logged (ExecCommand command) st1).
Proof.
  intros Hconn Hreply Hout Herr. unfold remote_execute_command. run.
  rewrite Hconn.
  rewrite exec_command_live by (by eapply remote_connect_ok_transport).
  rewrite Hreply. simpl. by rewrite Hout, Herr.
Qed.

Lemma remote_execute_command_passthrough_witness :
  exit_status (mkChannels bytes_found bytes_hi 1) = 1
  ∧ fst (remote_execute_command friendly ascii_runtime "cat /etc/passwd; exit 1"
           (start home_manager))
    = Ok (String.string_of_list_byte bytes_found, String.string_of_list_byte bytes_hi).
Proof.
  split; [reflexivity|].
  rewrite (remote_execute_command_passthrough friendly ascii_runtime
             "cat /etc/passwd; exit 1" (start home_manager)
             (snd (remote_connect friendly (start home_manager)))
             (mkChannels bytes_found bytes_hi 1)
             (String.string_of_list_byte bytes_found)
             (String.string_of_list_byte bytes_hi)
             eq_refl eq_refl eq_refl eq_refl).
  reflexivity.
Defined.

(** C6.  The empty path is confined to the base path itself, and listing
    the empty path asks the host for the entries of the base path and
    returns one item per entry, its path being the entry's name. *)
Theorem empty_path_denotes_root (host : remote) (st st1 : state)
    (attrs : list SFTPAttributes) :
  session_inv (fs st) →
  remote_connect host st = (Ok (), st1) →
  listdir_attr_reply host (pathlib.str (base_path (fs st))) = Ok attrs →
  _validate_path (base_path (fs st)) (PStr "") = Ok (base_path (fs st))
  ∧ remote_list_directory host "" st
    = (Ok (map (make_item "") attrs),
       logged (ListdirAttr (pathlib.str (base_path (fs st)))) st1)
  ∧ map item_path (map (make_item "") attrs) = map filename attrs
  ∧ map item_name (map (make_item "") attrs) = map filename attrs.
Proof.
  intros Hinv Hconn Hreply. split; [apply validate_path_empty|].
  split; [|by rewrite !map_map].
  pose proof (remote_connect_config host st) as (_ & _ & _ & _ & _ & Hbase).
  rewrite Hconn in Hbase. simpl in Hbase.
  unfold remote_list_directory. run. rewrite Hconn, Hbase.
  rewrite on_sftp_live by (by eapply remote_connect_ok_subchannel).
  by rewrite Hreply.
Qed.

Lemma empty_path_denotes_root_witness :
  _validate_path (pathlib.Path "/home/u") (PStr "") = Ok (pathlib.Path "/home/u")
  ∧ fst (remote_list_directory friendly "" (start home_manager))
    = Ok [mkItem "a" "a" file (Some 10) 33188 1700000000;
          mkItem "b" "b" directory None 16877 1700000001]
  ∧ log (snd (remote_list_directory friendly "" (start home_manager)))
    = log (snd (remote_connect friendly (start home_manager)))
      ++ [ListdirAttr "/home/u"].
Proof.
  assert (Hinv : session_inv (fs (start home_manager))) by (intros H; discriminate H).
  destruct (empty_path_denotes_root friendly (start home_manager)
              (snd (remote_connect friendly (start home_manager)))
              sample_attrs Hinv eq_refl eq_refl) as (H1 & H2 & _).
  split; [exact H1|]. rewrite H2. split; reflexivity.
Defined.

(** ** Resource identifiers *)








Lemma make_resource_Ok (py : runtime) (h : string) (item : dir_item)
    (r : Resource) :
  make_resource py h item = Ok r →
  any_url py (resource_uri h (item_path item)) = Ok (uri r)
  ∧ name r = item_name item
  ∧ mimeType r = match item_type item with
                 | directory => "inode/directory"
                 | file => mime_or_plain (guess_type py (item_name item))
                 end.
Proof.
  unfold make_resource.
  destruct (any_url py _) as [url|e]; [|done]. by intros [= <-].
Qed.





(** ** Start-up checks *)

(** C5 as the specification words it fails: a configuration that carries
    both a password and a key file passes the checks. *)
Lemma check_config_accepts_both_credentials :
  ¬ refuses_unless_exactly_one both_credentials.
Proof.
  unfold refuses_unless_exactly_one. intros Hclaim.
  assert (Hboth : exactly_one_credential both_credentials = false)
    by (by vm_compute).
  specialize (Hclaim (or_intror (or_intror Hboth))).
  vm_compute in Hclaim. discriminate Hclaim.
Qed.

(** C5, amended.  The checks refuse a configuration exactly when the host
    name is missing, the user name is missing, or both the password and the
    key file are missing, each with its own message; a configuration with at
    least one credential, or with both, passes. *)
Theorem check_config_at_least_one (cfg : gmap string pyval) :
  let has key := truthy (dict_get cfg key) in
  (has "hostname" = false → check_config cfg = Raise hostname_required)
  ∧ (has "hostname" = true → has "username" = false →
     check_config cfg = Raise username_required)
  ∧ (has "hostname" = true → has "username" = true →
     has "password" = false → has "key_filename" = false →
     check_config cfg = Raise credential_required)
  ∧ (has "hostname" = true → has "username" = true →
     has "password" = true ∨ has "key_filename" = true →
     check_config cfg = Ok ())
  ∧ (is_ok (check_config cfg) = false
     ↔ has "hostname" = false ∨ has "username" = false
       ∨ (has "password" = false ∧ has "key_filename" = false)).
Proof.
  simpl. unfold check_config.
  destruct (truthy (dict_get cfg "hostname")),
           (truthy (dict_get cfg "username")),
           (truthy (dict_get cfg "password")),
           (truthy (dict_get cfg "key_filename")); simpl;
    split_and!; try done; try (intros; by intuition); by intuition.
Qed.

Lemma check_config_at_least_one_witness :
  truthy (dict_get both_credentials "password") = true
  ∧ check_config both_credentials = Ok ()
  ∧ check_config (delete "password" (delete "key_filename" both_credentials))
    = Raise credential_required.
Proof.
  destruct (check_config_at_least_one both_credentials)
    as (_ & _ & _ & Hok & _).
  destruct (check_config_at_least_one
              (delete "password" (delete "key_filename" both_credentials)))
    as (_ & _ & Hnone & _).
  split; [by vm_compute|].
  split; [apply Hok; [by vm_compute | by vm_compute | left; by vm_compute]|].
  apply Hnone; by vm_compute.
Defined.

(** * Further properties *)

(** ** Relative candidates *)

Lemma normpath_relative_join (s : string) :
  Str.startswith s "/" = false →
  let comps := foldl (posixpath.normpath_step 0) [] (Str.split "/" s) in
  posixpath.normpath s
  = if bool_decide (comps = []) then "." else Str.join "/" comps.
Proof.
  intros Hrel comps.
  assert (Hshape : dotdots_then_names comps = true)
    by (apply normpath_loop_shape; [apply split_sepfree | done]).
  unfold posixpath.normpath, posixpath.initial_slashes. rewrite Hrel.
  case_bool_decide as Hs; [by subst|]. fold comps. simpl.
  destruct comps as [|x l]; [done|].
  apply shape_components in Hshape.
  inversion Hshape as [|? ? [Hk _] _]; subst.
  rewrite (bool_decide_false (x :: l = [])) by done.
  destruct x as [|a x]; [done|].
  rewrite bool_decide_false; [done|]. by destruct l.
Qed.

Lemma shape_without_dotdot (x : string) (l : list string) :
  dotdots_then_names (x :: l) = true → x ≠ ".." →
  forallb is_name (x :: l) = true.
Proof. cbn [dotdots_then_names]. intros Hl Hx. by rewrite bool_decide_false in Hl. Qed.

Lemma is_name_not_dotdot (l : list string) :
  forallb is_name l = true → ".." ∉ l.
Proof.
  induction l as [|x l IH]; [intros _; apply not_elem_of_nil|].
  intros [Hx Hl]%andb_prop. apply not_elem_of_cons.
  split; [|by apply IH]. intros <-. by destruct (is_name_inv ".." Hx).
Qed.

(** X1.  With an absolute base path no relative candidate is rejected: the
    confined path is the base path followed by the candidate's normalised
    components, which are dot-dot segments followed by names, and its string
    form is the base's followed by those components. *)
Theorem relative_candidate_never_rejected (base : PurePath) (s : string) :
  path_root base ≠ "" → Str.startswith s "/" = false →
  ∃ comps,
    _validate_path base (PStr s)
    = Ok (mkPath (path_root base) (path_tail base ++ comps))
    ∧ dotdots_then_names comps = true
    ∧ posixpath.normpath s
      = (if bool_decide (comps = []) then "." else Str.join "/" comps)
    ∧ pathlib.str (mkPath (path_root base) (path_tail base ++ comps))
      = path_root base +:+ Str.join "/" (path_tail base ++ comps).
Proof.
  intros Hbase Hrel.
  exists (foldl (posixpath.normpath_step 0) [] (Str.split "/" s)).
  destruct (validate_path_relative base s Hbase Hrel) as [Hshape Hval].
  split_and!; [done | done | by apply normpath_relative_join |].
  unfold pathlib.str. simpl. rewrite bool_decide_false; [done|].
  by destruct (path_root base).
Qed.

Lemma relative_candidate_never_rejected_witness :
  path_root (pathlib.Path "/srv/data") ≠ ""
  ∧ Str.startswith "a/../../../etc/./passwd" "/" = false
  ∧ ∃ comps,
      _validate_path (pathlib.Path "/srv/data") (PStr "a/../../../etc/./passwd")
      = Ok (mkPath "/" (["srv"; "data"] ++ comps))
      ∧ posixpath.normpath "a/../../../etc/./passwd"
        = (if bool_decide (comps = []) then "." else Str.join "/" comps).
Proof.
  split; [done|]. split; [done|].
  destruct (relative_candidate_never_rejected (pathlib.Path "/srv/data")
              "a/../../../etc/./passwd") as (comps & Hval & _ & Hnorm & _);
    [done | done |].
  exists comps. by split.
Defined.

(** X2.  A relative candidate whose normalised form does not begin with a
    dot-dot segment is confined by components: the result is the base path
    followed by names only, so it contains no dot-dot segment beyond those
    of the base path. *)
Theorem relative_candidate_inside (base : PurePath) (s : string) (p : PurePath) :
  path_root base ≠ "" → Str.startswith s "/" = false →
  head (Str.split "/" (posixpath.normpath s)) ≠ Some ".." →
  _validate_path base (PStr s) = Ok p →
  ∃ names,
    p = mkPath (path_root base) (path_tail base ++ names)
    ∧ forallb is_name names = true
    ∧ ".." ∉ names.
Proof.
  intros Hbase Hrel Hhead Hval.
  destruct (validate_path_relative base s Hbase Hrel) as [Hshape Hok].
  rewrite Hok in Hval. injection Hval as <-.
  pose proof (normpath_relative_join s Hrel) as Hnorm. simpl in Hnorm.
  set (comps := foldl (posixpath.normpath_step 0) [] (Str.split "/" s)) in *.
  exists comps. split; [done|].
  assert (Hnames : forallb is_name comps = true).
  { destruct comps as [|x l] eqn:Hcomps; [done|].
    rewrite (bool_decide_false (x :: l = [])) in Hnorm by done.
    apply shape_without_dotdot; [done|]. intros ->.
    apply Hhead. rewrite Hnorm.
    change (Str.join "/" (".." :: l)) with (Str.join (String "/" "") (".." :: l)).
    rewrite split_join; [done | done |].
    eapply Forall_impl; [by apply shape_components|]. by intros ? [_ ?]. }
  split; [done | by apply is_name_not_dotdot].
Qed.

Lemma relative_candidate_inside_witness :
  ∃ names,
    _validate_path (pathlib.Path "/srv/data") (PStr "a/b/../c//d.txt")
    = Ok (mkPath "/" (["srv"; "data"] ++ names))
    ∧ ".." ∉ names.
Proof.
  destruct (relative_candidate_inside (pathlib.Path "/srv/data")
              "a/b/../c//d.txt" (mkPath "/" ["srv"; "data"; "a"; "c"; "d.txt"]))
    as (names & Hp & _ & Hno); [done | done | by vm_compute | by vm_compute |].
  exists names. split; [|exact Hno].
  assert (Hq : mkPath "/" (["srv"; "data"] ++ names)
               = mkPath "/" ["srv"; "data"; "a"; "c"; "d.txt"])
    by (symmetry; exact Hp).
  rewrite Hq. reflexivity.
Defined.

(** ** Listing and asking again *)

Lemma step_skips (n : nat) (acc : list string) (x : string) :
  pathlib.kept x = false → posixpath.normpath_step n acc x = acc.
Proof.
  unfold pathlib.kept, posixpath.normpath_step. intros Hx.
  destruct (bool_decide (x = "")); [done|].
  destruct (bool_decide (x = ".")); [done|]. done.
Qed.

Lemma loop_filter_kept (n : nat) (l acc : list string) :
  foldl (posixpath.normpath_step n) acc (filter (λ x, pathlib.kept x = true) l)
  = foldl (posixpath.normpath_step n) acc l.
Proof.
  revert acc. induction l as [|x l IH]; intros acc; [done|].
  destruct (pathlib.kept x) eqn:Hx.
  - rewrite filter_cons_True by done. simpl. apply IH.
  - rewrite filter_cons_False by (by rewrite Hx). simpl.
    rewrite step_skips by done. apply IH.
Qed.

Lemma step_name (acc : list string) (x : string) :
  is_name x = true → posixpath.normpath_step 0 acc x = acc ++ [x].
Proof.
  intros (Hd & Hk & _)%is_name_inv. unfold posixpath.normpath_step.
  unfold pathlib.kept in Hk. apply andb_prop in Hk as [He Hdot].
  apply negb_true_iff in He, Hdot. rewrite He, Hdot. simpl.
  by rewrite (bool_decide_false (x = "..")).
Qed.

Lemma join_head (x : string) (l : list string) :
  ∃ r, Str.join "/" (x :: l) = x +:+ r.
Proof.
  destruct l as [|y l].
  - exists "". change (Str.join "/" [x]) with x.
    induction x as [|a x IH]; [done|].
    change (String a x +:+ "") with (String a (x +:+ "")). by f_equal.
  - by eexists.
Qed.

Lemma join_not_rooted (x : string) (l : list string) :
  pathlib.kept x = true → Str.count "/" x = O →
  Str.startswith (Str.join "/" (x :: l)) "/" = false
  ∧ Str.join "/" (x :: l) ≠ "".
Proof.
  intros Hk Hx. destruct (join_head x l) as [r ->].
  destruct x as [|a x]; [done|]. apply count_cons_0 in Hx as [Ha _].
  split; [|done]. change (String a x +:+ r) with (String a (x +:+ r)).
  by rewrite startswith_char.
Qed.

Lemma Path_relative (s : string) :
  Str.startswith s "/" = false →
  pathlib.Path s = mkPath "" (filter (λ x, pathlib.kept x = true) (Str.split "/" s)).
Proof. intros Hs. unfold pathlib.Path, pathlib.splitroot. by rewrite Hs. Qed.

Lemma Path_name (x : string) :
  is_name x = true → pathlib.Path x = mkPath "" [x].
Proof.
  intros (_ & Hk & Hc)%is_name_inv.
  destruct (join_not_rooted x [] Hk Hc) as [Hrel _]. simpl in Hrel.
  rewrite Path_relative by done. rewrite split_single by done.
  by rewrite filter_cons_True.
Qed.

(** X3.  The path of a listed item can be given back: for a relative [path]
    argument (the empty one included) that is confined to [full], the item
    built for an entry with a plain name has a path that is confined to
    [full / name]. *)
Theorem listed_item_path_resolves (base : PurePath) (path : string)
    (attr : SFTPAttributes) (full : PurePath) :
  path_root base ≠ "" → Str.startswith path "/" = false →
  is_name (filename attr) = true →
  _validate_path base (PStr path) = Ok full →
  _validate_path base (PStr (item_path (make_item path attr)))
  = Ok (pathlib.truediv full (filename attr)).
Proof.
  intros Hbase Hrel Hname Hfull.
  destruct (validate_path_relative base path Hbase Hrel) as [_ Hok].
  rewrite Hok in Hfull. injection Hfull as <-.
  destruct (is_name_inv _ Hname) as (_ & Hk & Hc).
  set (F := filter (λ x, pathlib.kept x = true) (Str.split "/" path)).
  assert (HF : Forall (λ x, pathlib.kept x = true ∧ Str.count "/" x = O)
                      (F ++ [filename attr])).
  { apply Forall_app. split; [|by repeat constructor].
    unfold F. apply Forall_forall. intros x [Hx Hin]%list_elem_of_filter.
    split; [done|].
    by apply (proj1 (Forall_forall _ _) (split_sepfree "/" path)). }
  assert (Hitem : item_path (make_item path attr)
                  = Str.join "/" (F ++ [filename attr])).
  { unfold make_item. simpl. case_bool_decide as Hp.
    - subst path. destruct (filename attr); done.
    - unfold pathlib.truediv. rewrite (Path_name _ Hname), Path_relative by done.
      simpl. fold F. unfold pathlib.str. simpl.
      destruct (F ++ [filename attr]) as [|y l] eqn:HG; [by destruct F|].
      inversion HF as [|? ? [Hy Hyc] _]; subst.
      destruct (join_not_rooted y l Hy Hyc) as [_ Hne].
      by rewrite bool_decide_false. }
  assert (Hrel' : Str.startswith (Str.join "/" (F ++ [filename attr])) "/" = false).
  { destruct (F ++ [filename attr]) as [|y l] eqn:HG; [by destruct F|].
    inversion HF as [|? ? [Hy Hyc] _]; subst.
    by destruct (join_not_rooted y l Hy Hyc). }
  rewrite Hitem.
  destruct (validate_path_relative base _ Hbase Hrel') as [_ ->].
  unfold pathlib.truediv. rewrite (Path_name _ Hname). simpl.
  do 2 f_equal. rewrite <- app_assoc. f_equal.
  change (Str.join "/" (F ++ [filename attr]))
    with (Str.join (String "/" "") (F ++ [filename attr])).
  rewrite split_join.
  - rewrite foldl_app. simpl. unfold F. rewrite loop_filter_kept.
    by apply step_name.
  - by destruct F.
  - eapply Forall_impl; [exact HF|]. by intros ? [_ ?].
Qed.

Lemma listed_item_path_resolves_witness :
  _validate_path (pathlib.Path "/home/u") (PStr "docs/../pub/.")
  = Ok (mkPath "/" ["home"; "u"; "pub"])
  ∧ item_path (make_item "docs/../pub/." (mkAttr "a.txt" 33188 10 0))
    = "docs/../pub/a.txt"
  ∧ _validate_path (pathlib.Path "/home/u") (PStr "docs/../pub/a.txt")
    = Ok (mkPath "/" ["home"; "u"; "pub"; "a.txt"]).
Proof.
  split; [reflexivity|]. split; [reflexivity|].
  exact (listed_item_path_resolves (pathlib.Path "/home/u") "docs/../pub/."
           (mkAttr "a.txt" 33188 10 0) (mkPath "/" ["home"; "u"; "pub"])
           ltac:(done) eq_refl eq_refl eq_refl).
Defined.

(** ** The session, continued *)

(** X4.  From any state without an active transport (never connected,
    closed, or holding a dead client and a stale channel), [remote_connect]
    on an accepting host builds a fresh client, connects it and opens the
    channel over it: both fields are replaced and the invariant holds. *)
Theorem remote_connect_recovers (host : remote) (st : state) :
  has_active_transport (fs st) = false →
  connect_reply host (make_connect_kwargs (fs st)) = Ok () →
  open_sftp_reply host = Ok () →
  ∃ st1,
    remote_connect host st = (Ok (), st1)
    ∧ _ssh_client (fs st1) = Some (mkClient (clients_made st) (Some true))
    ∧ _sftp_client (fs st1) = Some (mkSftp (clients_made st))
    ∧ has_active_subchannel (fs st1) = true
    ∧ session_inv (fs st1)
    ∧ log st1 = log st ++ [Connect (make_connect_kwargs (fs st)); OpenSftp]
    ∧ clients_made st1 = S (clients_made st).
Proof.
  intros Hdead Hconn Hsftp. eexists. rewrite remote_connect_eq, Hdead. simpl.
  rewrite Hconn, Hsftp. split; [reflexivity|]. simpl.
  assert (Hsub : has_active_subchannel
            (set_sftp_client (Some (mkSftp (clients_made st)))
               (set_ssh_client (Some (mkClient (clients_made st) (Some true)))
                  (fs st))) = true).
  { unfold has_active_subchannel. simpl. by rewrite bool_decide_true. }
  split_and!; try done. by intros _.
Qed.

Lemma remote_connect_recovers_witness :
  let dead :=
    mkState (set_sftp_client (Some (mkSftp 0))
               (set_ssh_client (Some (mkClient 0 (Some false))) home_manager))
            [] 1 in
  has_active_transport (fs dead) = false
  ∧ ∃ st1, remote_connect friendly dead = (Ok (), st1)
           ∧ _sftp_client (fs st1) = Some (mkSftp 1)
           ∧ has_active_subchannel (fs st1) = true.
Proof.
  simpl. split; [reflexivity|].
  destruct (remote_connect_recovers friendly
              (mkState (set_sftp_client (Some (mkSftp 0))
                          (set_ssh_client (Some (mkClient 0 (Some false)))
                             home_manager)) [] 1)
              eq_refl eq_refl eq_refl)
    as (st1 & H1 & _ & H3 & H4 & _).
  exists st1. by split_and!.
Defined.

(** X5.  Once [remote_connect] has returned normally, calling it again
    issues no call and changes nothing. *)
Theorem remote_connect_idempotent (host : remote) (st st1 : state) :
  remote_connect host st = (Ok (), st1) →
  remote_connect host st1 = (Ok (), st1)
  ∧ log (snd (remote_connect host st1)) = log st1.
Proof.
  intros Hconn. pose proof (remote_connect_ok_transport host st st1 Hconn) as Hact.
  rewrite (remote_connect_eq host st1), Hact. done.
Qed.

Lemma remote_connect_idempotent_witness :
  let st1 := snd (remote_connect friendly (start home_manager)) in
  remote_connect friendly (start home_manager) = (Ok (), st1)
  ∧ remote_connect friendly st1 = (Ok (), st1).
Proof.
  simpl. split; [reflexivity|].
  exact (proj1 (remote_connect_idempotent friendly (start home_manager)
                  (snd (remote_connect friendly (start home_manager))) eq_refl)).
Defined.

(** X6.  When [SSHClient.connect] raises, [remote_connect] raises the same
    exception without trying to open a channel, and the manager keeps the
    new client with the transport the failed attempt left.  If that is no
    active transport (the host was not reached, or the negotiation failed)
    the invariant holds and the next [remote_connect] connects again.  If it
    is an active transport (the authentication was refused) the next
    [remote_connect] returns at once, normally, although nothing was
    authenticated and no channel was opened. *)
Theorem remote_connect_failure (host : remote) (st : state) (e : exn) :
  has_active_transport (fs st) = false →
  connect_reply host (make_connect_kwargs (fs st)) = Raise e →
  let kw := make_connect_kwargs (fs st) in
  let st1 := snd (remote_connect host st) in
  fst (remote_connect host st) = Raise e
  ∧ log st1 = log st ++ [Connect kw]
  ∧ _ssh_client (fs st1)
    = Some (mkClient (clients_made st) (connect_leaves host kw))
  ∧ _sftp_client (fs st1) = _sftp_client (fs st)
  ∧ (connect_leaves host kw ≠ Some true →
     has_active_transport (fs st1) = false
     ∧ session_inv (fs st1)
     ∧ ∃ l, log (snd (remote_connect host st1)) = log st1 ++ Connect kw :: l)
  ∧ (connect_leaves host kw = Some true →
     has_active_transport (fs st1) = true
     ∧ remote_connect host st1 = (Ok (), st1)
     ∧ (_sftp_client (fs st) = None →
        has_active_subchannel (fs st1) = false ∧ ¬ session_inv (fs st1))).
Proof.
  intros Hdead Hconn. simpl.
  rewrite (remote_connect_eq host st), Hdead. simpl. rewrite Hconn. simpl.
  split_and!; try done.
  - intros Hleft.
    assert (Hin : has_active_transport
              (set_ssh_client
                 (Some (mkClient (clients_made st)
                          (connect_leaves host (make_connect_kwargs (fs st)))))
                 (fs st)) = false).
    { unfold has_active_transport, transport_is_active. simpl.
      by destruct (connect_leaves host _) as [[]|]. }
    split; [done|]. split; [intros Hact; by rewrite Hin in Hact|].
    rewrite remote_connect_eq. simpl. rewrite Hin.
    change (make_connect_kwargs (set_ssh_client _ (fs st)))
      with (make_connect_kwargs (fs st)).
    rewrite Hconn. simpl. by exists [].
  - intros Hleft.
    assert (Hin : has_active_transport
              (set_ssh_client
                 (Some (mkClient (clients_made st)
                          (connect_leaves host (make_connect_kwargs (fs st)))))
                 (fs st)) = true).
    { unfold has_active_transport, transport_is_active. simpl. by rewrite Hleft. }
    split; [done|]. split.
    + rewrite remote_connect_eq. simpl. by rewrite Hin.
    + intros Hnone.
      assert (Hsub : has_active_subchannel
                (set_ssh_client
                   (Some (mkClient (clients_made st)
                            (connect_leaves host (make_connect_kwargs (fs st)))))
                   (fs st)) = false).
      { unfold has_active_subchannel. simpl. by rewrite Hnone. }
      split; [done|]. intros Hinv. specialize (Hinv Hin). by rewrite Hsub in Hinv.
Qed.

Lemma remote_connect_failure_witness :
  (fst (remote_connect unreachable (start home_manager))
   = Raise (OSError "Network is unreachable")
   ∧ has_active_transport
       (fs (snd (remote_connect unreachable (start home_manager)))) = false)
  ∧ (let st1 := snd (remote_connect password_refused (start home_manager)) in
     fst (remote_connect password_refused (start home_manager))
     = Raise (SSHException "Authentication failed.")
     ∧ remote_connect password_refused st1 = (Ok (), st1)
     ∧ ¬ session_inv (fs st1)).
Proof.
  split.
  - destruct (remote_connect_failure unreachable (start home_manager)
                (OSError "Network is unreachable") eq_refl eq_refl)
      as (H1 & _ & _ & _ & Hnone & _).
    split; [exact H1|]. apply Hnone. done.
  - destruct (remote_connect_failure password_refused (start home_manager)
                (SSHException "Authentication failed.") eq_refl eq_refl)
      as (H1 & _ & _ & _ & _ & Hauth).
    destruct (Hauth eq_refl) as (_ & Hnoop & Hbroken).
    split; [exact H1|]. split; [exact Hnoop|]. by apply Hbroken.
Defined.

(** ** What the operations leave of the manager *)

Lemma on_sftp_fs {A} (c : call) (reply : result A) (st : state) :
  fs (snd (on_sftp c reply st)) = fs st.
Proof.
  unfold on_sftp. run. destruct (_sftp_client (fs st)); [|done].
  destruct (has_active_subchannel (fs st)); [|done]. by destruct reply.
Qed.

Lemma exec_command_fs (host : remote) (command : string) (st : state) :
  fs (snd (exec_command host command st)) = fs st.
Proof.
  unfold exec_command. run. destruct (_ssh_client (fs st)) as [c|]; [|done].
  destruct (transport_is_active c); [|done].
  by destruct (exec_command_reply host command).
Qed.

Lemma search_entry_fs (host : remote) (file_path : string) (st : state) :
  fs (snd (search_entry host file_path st)) = fs st
  ∧ is_ok (fst (search_entry host file_path st)) = true.
Proof.
  unfold search_entry. destruct (Str.strip_is_empty file_path); [done|].
  unfold try_except, mbind, M_bind.
  pose proof (on_sftp_fs (Stat file_path) (stat_reply host file_path) st) as Hfs.
  destruct (on_sftp _ _ st) as [[attr|e] st1]; simpl in *; done.
Qed.

Lemma search_loop_fs (host : remote) (file_list : list string)
    (results : list found_item) (st : state) :
  fs (snd (search_loop host file_list results st)) = fs st.
Proof.
  revert results st.
  induction file_list as [|file_path rest IH]; intros results st; [done|].
  cbn [search_loop]. unfold mbind, M_bind.
  destruct (search_entry_fs host file_path st) as [Hfs _].
  destruct (search_entry host file_path st) as [[r|e] st1]; simpl in *; [|done].
  by rewrite IH.
Qed.

(** After [remote_connect], no operation writes a field of the manager. *)
Lemma operations_fs (host : remote) (py : runtime) (st : state) :
  (∀ path, fs (snd (remote_read_file host py path st))
           = fs (snd (remote_connect host st)))
  ∧ (∀ path content, fs (snd (remote_write_file host py path content st))
                     = fs (snd (remote_connect host st)))
  ∧ (∀ path, fs (snd (remote_list_directory host path st))
             = fs (snd (remote_connect host st)))
  ∧ (∀ pattern path, fs (snd (remote_search_files host py pattern path st))
                     = fs (snd (remote_connect host st)))
  ∧ (∀ command, fs (snd (remote_execute_command host py command st))
                = fs (snd (remote_connect host st))).
Proof.
  split_and!; intros.
  - unfold remote_read_file, validate. run.
    destruct (remote_connect host st) as [[[]|e] st1]; simpl; [|done].
    destruct (_validate_path _ _) as [full|e]; simpl; [|done].
    pose proof (on_sftp_fs (Getfo (pathlib.str full))
                  (getfo_reply host (pathlib.str full)) st1) as Hfs.
    destruct (on_sftp _ _ st1) as [[data|e] st2]; simpl in *.
    + destruct (decode_utf8 py data) as [content|e]; simpl; [done|by destruct e].
    + by destruct e.
  - unfold remote_write_file, validate. run.
    destruct (remote_connect host st) as [[[]|e] st1]; simpl; [|done].
    destruct (_validate_path _ _) as [full|e]; simpl; [|done].
    destruct (encode_utf8 py content) as [data|e]; simpl; [|by destruct e].
    pose proof (on_sftp_fs (Putfo (pathlib.str full) data)
                  (putfo_reply host (pathlib.str full) data) st1) as Hfs.
    destruct (on_sftp _ _ st1) as [[[]|e] st2]; simpl in *; [done|].
    by destruct e.
  - unfold remote_list_directory, validate. run.
    destruct (remote_connect host st) as [[[]|e] st1]; simpl; [|done].
    assert (Hlist : ∀ full,
      fs (snd (let (r, st') :=
                 on_sftp (ListdirAttr (pathlib.str full))
                   (listdir_attr_reply host (pathlib.str full)) st1 in
               match r with
               | Ok a => (Ok (map (make_item path) a), st')
               | Raise e => (Raise e, st')
               end)) = fs st1).
    { intros full.
      pose proof (on_sftp_fs (ListdirAttr (pathlib.str full))
                    (listdir_attr_reply host (pathlib.str full)) st1) as Hfs.
      by destruct (on_sftp _ _ st1) as [[attrs|e] st2]. }
    case_bool_decide; simpl.
    + specialize (Hlist (base_path (fs st1))).
      destruct (on_sftp _ _ st1) as [[attrs|e] st2]; simpl in *; [done|].
      by destruct e.
    + destruct (_validate_path _ _) as [full|e]; simpl; [|done].
      specialize (Hlist full).
      destruct (on_sftp _ _ st1) as [[attrs|e] st2]; simpl in *; [done|].
      by destruct e.
  - unfold remote_search_files. run.
    destruct (remote_connect host st) as [[[]|e] st1]; simpl; [|done].
    pose proof (exec_command_fs host
      (find_command (if bool_decide (path = "")
                     then pathlib.str (base_path (fs st)) else path) pattern)
      st1) as Hfs.
    destruct (exec_command host _ st1) as [[ch|e] st2]; simpl in *; [|done].
    destruct (decode_utf8 py (stdout_data ch)); simpl; [|done].
    by rewrite search_loop_fs.
  - unfold remote_execute_command. run.
    destruct (remote_connect host st) as [[[]|e] st1]; simpl; [|done].
    pose proof (exec_command_fs host command st1) as Hfs.
    destruct (exec_command host _ st1) as [[ch|e] st2]; simpl in *; [|done].
    destruct (decode_utf8 py (stdout_data ch)); simpl; [|done].
    by destruct (decode_utf8 py (stderr_data ch)).
Qed.

(** X7.  Every operation of the manager keeps its configuration (host name,
    port, user, credentials, base path).  The session invariant is kept as
    well on a host that grants the SFTP subsystem and whose connection,
    when it fails, leaves no active transport. *)
Theorem operations_keep_config_and_session (host : remote) (py : runtime)
    (st : state) :
  let kw := make_connect_kwargs (fs st) in
  let kept st' :=
    same_config (fs st) (fs st')
    ∧ (is_ok (open_sftp_reply host) = true →
       (is_ok (connect_reply host kw) = false →
        connect_leaves host kw ≠ Some true) →
       session_inv (fs st) → session_inv (fs st')) in
  (∀ path, kept (snd (remote_read_file host py path st)))
  ∧ (∀ path content, kept (snd (remote_write_file host py path content st)))
  ∧ (∀ path, kept (snd (remote_list_directory host path st)))
  ∧ (∀ pattern path, kept (snd (remote_search_files host py pattern path st)))
  ∧ (∀ command, kept (snd (remote_execute_command host py command st)))
  ∧ kept (snd (remote_connect host st))
  ∧ kept (snd (remote_close st)).
Proof.
  simpl.
  destruct (operations_fs host py st) as (Hr & Hw & Hl & Hs & He).
  assert (Hc : same_config (fs st) (fs (snd (remote_connect host st)))
               ∧ (is_ok (open_sftp_reply host) = true →
                  (is_ok (connect_reply host (make_connect_kwargs (fs st))) = false →
                   connect_leaves host (make_connect_kwargs (fs st)) ≠ Some true) →
                  session_inv (fs st) →
                  session_inv (fs (snd (remote_connect host st))))).
  { split; [apply remote_connect_config | apply remote_connect_inv]. }
  split; [intros; by rewrite Hr|]. split; [intros; by rewrite Hw|].
  split; [intros; by rewrite Hl|]. split; [intros; by rewrite Hs|].
  split; [intros; by rewrite He|]. split; [exact Hc|].
  rewrite remote_close_eq. simpl. split; [done|]. by intros _ _ _.
Qed.

Lemma operations_keep_config_and_session_witness :
  base_path (fs (snd (remote_write_file friendly ascii_runtime "x" "y"
                        (start home_manager))))
  = pathlib.Path "/home/u"
  ∧ session_inv (fs (snd (remote_search_files friendly ascii_runtime "x" ""
                            (start home_manager))))
  ∧ session_inv (fs (snd (remote_list_directory unreachable "x"
                            (start home_manager)))).
Proof.
  destruct (operations_keep_config_and_session friendly ascii_runtime
              (start home_manager)) as (_ & Hw & _ & Hs & _).
  destruct (operations_keep_config_and_session unreachable ascii_runtime
              (start home_manager)) as (_ & _ & Hl & _).
  destruct (Hw "x" "y") as [(_ & _ & _ & _ & _ & Hbase) _].
  destruct (Hs "x" "") as [_ Hinv].
  destruct (Hl "x") as [_ Hinv'].
  assert (Hstart : session_inv (fs (start home_manager)))
    by (intros H; discriminate H).
  split; [exact Hbase|]. split.
  - apply Hinv; [reflexivity | intros H; discriminate H | exact Hstart].
  - apply Hinv'; [reflexivity | intros _ H; discriminate H | exact Hstart].
Defined.

(** ** Reading and writing *)

Lemma connect_then_validate (host : remote) (path : string) (st st1 : state) :
  remote_connect host st = (Ok (), st1) →
  validate path st1 = (_validate_path (base_path (fs st)) (PStr path), st1).
Proof.
  intros Hconn. pose proof (validate_after_connect host path st) as Hval.
  by rewrite Hconn in Hval.
Qed.

Lemma remote_read_file_eq (host : remote) (py : runtime) (path : string)
    (st st1 : state) (full : PurePath) :
  session_inv (fs st) →
  remote_connect host st = (Ok (), st1) →
  _validate_path (base_path (fs st)) (PStr path) = Ok full →
  remote_read_file host py path st
  = (match getfo_reply host (pathlib.str full) with
     | Ok data =>
         match decode_utf8 py data with
         | Ok content =>
             Ok (content, mime_or_plain (guess_type py (pathlib.str full)))
         | Raise e => Raise (read_error path e)
         end
     | Raise e => Raise (read_error path e)
     end,
     logged (Getfo (pathlib.str full)) st1).
Proof.
  intros Hinv Hconn Hfull. unfold remote_read_file, mbind, M_bind.
  rewrite Hconn, (connect_then_validate host path st st1 Hconn), Hfull.
  unfold try_except.
  rewrite on_sftp_live by (by eapply remote_connect_ok_subchannel).
  destruct (getfo_reply host _) as [data|e]; [|by destruct e].
  unfold lift. destruct (decode_utf8 py data) as [content|e]; [done|by destruct e].
Qed.

Lemma remote_write_file_eq (host : remote) (py : runtime) (path content : string)
    (st st1 : state) (full : PurePath) :
  session_inv (fs st) →
  remote_connect host st = (Ok (), st1) →
  _validate_path (base_path (fs st)) (PStr path) = Ok full →
  remote_write_file host py path content st
  = match encode_utf8 py content with
    | Ok data =>
        (match putfo_reply host (pathlib.str full) data with
         | Ok _ => Ok ()
         | Raise e => Raise (write_error path e)
         end,
         logged (Putfo (pathlib.str full) data) st1)
    | Raise e => (Raise (write_error path e), st1)
    end.
Proof.
  intros Hinv Hconn Hfull. unfold remote_write_file, mbind, M_bind.
  rewrite Hconn, (connect_then_validate host path st st1 Hconn), Hfull.
  unfold try_except, lift.
  destruct (encode_utf8 py content) as [data|e]; [|by destruct e].
  rewrite on_sftp_live by (by eapply remote_connect_ok_subchannel).
  destruct (putfo_reply host _ data) as [[]|e]; [done|by destruct e].
Qed.

(** X8.  On a live session and a confined path, [remote_read_file] fetches
    exactly the file at the confined path; when the bytes decode it returns
    the text with a media type that is never empty ([text/plain] when none
    is guessed). *)
Theorem remote_read_file_success (host : remote) (py : runtime) (path : string)
    (st st1 : state) (full : PurePath) (data : bytes) (content : string) :
  session_inv (fs st) →
  remote_connect host st = (Ok (), st1) →
  _validate_path (base_path (fs st)) (PStr path) = Ok full →
  getfo_reply host (pathlib.str full) = Ok data →
  decode_utf8 py data = Ok content →
  ∃ mime,
    remote_read_file host py path st
    = (Ok (content, mime), logged (Getfo (pathlib.str full)) st1)
    ∧ mime ≠ ""
    ∧ (guess_type py (pathlib.str full) = None → mime = "text/plain").
Proof.
  intros Hinv Hconn Hfull Hget Hdec.
  rewrite (remote_read_file_eq host py path st st1 full) by done.
  rewrite Hget, Hdec. eexists. split; [reflexivity|].
  unfold mime_or_plain. destruct (guess_type py _) as [m|]; [|done].
  case_bool_decide; done.
Qed.

Lemma remote_read_file_success_witness :
  remote_read_file friendly ascii_runtime "notes.txt" (start home_manager)
  = (Ok (String.string_of_list_byte bytes_hi, "text/plain"),
     logged (Getfo "/home/u/notes.txt")
            (snd (remote_connect friendly (start home_manager)))).
Proof.
  assert (Hinv : session_inv (fs (start home_manager))) by (intros H; discriminate H).
  destruct (remote_read_file_success friendly ascii_runtime "notes.txt"
              (start home_manager)
              (snd (remote_connect friendly (start home_manager)))
              (mkPath "/" ["home"; "u"; "notes.txt"]) bytes_hi
              (String.string_of_list_byte bytes_hi)
              Hinv eq_refl eq_refl eq_refl eq_refl) as (mime & Hread & _ & Hplain).
  rewrite Hread. by rewrite (Hplain eq_refl).
Defined.

(** X9.  The failures of [remote_read_file] on a live session and a confined
    path.  The cause is the exception of [getfo] or, once the file is
    fetched, the exception of the decoding.  A missing file and a refused
    access keep their class, with the caller's path in the message; every
    other cause, whatever its class, becomes a plain [Exception] that
    carries the cause's message; and the operation fails only with a cause.
    One [getfo] call is issued in each case. *)
Theorem remote_read_file_failures (host : remote) (py : runtime) (path : string)
    (st st1 : state) (full : PurePath) :
  session_inv (fs st) →
  remote_connect host st = (Ok (), st1) →
  _validate_path (base_path (fs st)) (PStr path) = Ok full →
  let cause e :=
    getfo_reply host (pathlib.str full) = Raise e
    ∨ ∃ data, getfo_reply host (pathlib.str full) = Ok data
              ∧ decode_utf8 py data = Raise e in
  snd (remote_read_file host py path st) = logged (Getfo (pathlib.str full)) st1
  ∧ (∀ m, cause (FileNotFoundError m) →
          fst (remote_read_file host py path st)
          = Raise (FileNotFoundError ("File not found: " +:+ path)))
  ∧ (∀ m, cause (PermissionError m) →
          fst (remote_read_file host py path st)
          = Raise (PermissionError ("Permission denied: " +:+ path)))
  ∧ (∀ e, other_failure e → cause e →
          fst (remote_read_file host py path st)
          = Raise (Exception ("Error reading file " +:+ path +:+ ": "
                              +:+ exn_str e)))
  ∧ (is_ok (fst (remote_read_file host py path st)) = false → ∃ e, cause e).
Proof.
  intros Hinv Hconn Hfull cause.
  rewrite (remote_read_file_eq host py path st st1 full) by done.
  split; [done|]. simpl.
  split_and!.
  - intros m [Hget | (data & Hget & Hdec)]; rewrite Hget; [done|]. by rewrite Hdec.
  - intros m [Hget | (data & Hget & Hdec)]; rewrite Hget; [done|]. by rewrite Hdec.
  - intros e He [Hget | (data & Hget & Hdec)]; rewrite Hget; [|rewrite Hdec];
      by destruct e.
  - unfold cause. destruct (getfo_reply host _) as [data|e].
    + destruct (decode_utf8 py data) as [content|e] eqn:Hdec; [done|].
      intros _. exists e. right. by exists data.
    + intros _. exists e. by left.
Qed.

Lemma remote_read_file_failures_witness :
  let binary :=
    mkRemote (λ _, Ok ()) (Ok ()) (λ _, Ok [Byte.xff; Byte.xfe])
             (λ _ _, Ok ()) (λ _, Ok []) (λ _, Raise (FileNotFoundError ""))
             (λ _, Raise (SSHException "")) in
  fst (remote_read_file binary ascii_runtime "logo.png" (start home_manager))
  = Raise (Exception "Error reading file logo.png: invalid start byte").
Proof.
  simpl.
  assert (Hinv : session_inv (fs (start home_manager))) by (intros H; discriminate H).
  destruct (remote_read_file_failures
              (mkRemote (λ _, Ok ()) (Ok ()) (λ _, Ok [Byte.xff; Byte.xfe])
                 (λ _ _, Ok ()) (λ _, Ok []) (λ _, Raise (FileNotFoundError ""))
                 (λ _, Raise (SSHException "")))
              ascii_runtime "logo.png" (start home_manager)
              (mkState (set_sftp_client (Some (mkSftp 0))
                          (set_ssh_client (Some (mkClient 0 (Some true)))
                             home_manager))
                 [Connect (make_connect_kwargs home_manager); OpenSftp] 1)
              (mkPath "/" ["home"; "u"; "logo.png"])
              Hinv eq_refl eq_refl) as (_ & _ & _ & Hother & _).
  apply (Hother (UnicodeDecodeError "invalid start byte") I).
  right. exists [Byte.xff; Byte.xfe]. by split.
Defined.

(** X10.  On a live session and a confined path, [remote_write_file] uploads
    the encoded content to the confined path in one [putfo] call.  A refused
    access keeps its class; a missing directory does not (there is no
    handler for it) and becomes a plain [Exception]; content that cannot be
    encoded fails before any upload. *)
Theorem remote_write_file_outcomes (host : remote) (py : runtime)
    (path content : string) (st st1 : state) (full : PurePath) :
  session_inv (fs st) →
  remote_connect host st = (Ok (), st1) →
  _validate_path (base_path (fs st)) (PStr path) = Ok full →
  (∀ data, encode_utf8 py content = Ok data →
     snd (remote_write_file host py path content st)
     = logged (Putfo (pathlib.str full) data) st1
     ∧ (putfo_reply host (pathlib.str full) data = Ok () →
        fst (remote_write_file host py path content st) = Ok ())
     ∧ (∀ m, putfo_reply host (pathlib.str full) data = Raise (PermissionError m) →
             fst (remote_write_file host py path content st)
             = Raise (PermissionError ("Permission denied: " +:+ path)))
     ∧ (∀ m, putfo_reply host (pathlib.str full) data = Raise (FileNotFoundError m) →
             fst (remote_write_file host py path content st)
             = Raise (Exception ("Error writing file " +:+ path +:+ ": " +:+ m))))
  ∧ (∀ e, encode_utf8 py content = Raise e →
          remote_write_file host py path content st
          = (Raise (write_error path e), st1)).
Proof.
  intros Hinv Hconn Hfull.
  rewrite (remote_write_file_eq host py path content st st1 full) by done.
  split.
  - intros data ->. split; [done|].
    split_and!; intros; simpl;
      repeat match goal with H : _ = _ |- _ => rewrite H end; done.
  - by intros e ->.
Qed.

Lemma remote_write_file_outcomes_witness :
  remote_write_file friendly ascii_runtime "notes.txt" "hi" (start home_manager)
  = (Ok (),
     logged (Putfo "/home/u/notes.txt" [Byte.x68; Byte.x69])
            (snd (remote_connect friendly (start home_manager)))).
Proof.
  assert (Hinv : session_inv (fs (start home_manager))) by (intros H; discriminate H).
  destruct (remote_write_file_outcomes friendly ascii_runtime "notes.txt" "hi"
              (start home_manager)
              (snd (remote_connect friendly (start home_manager)))
              (mkPath "/" ["home"; "u"; "notes.txt"])
              Hinv eq_refl eq_refl) as [Hput _].
  destruct (Hput [Byte.x68; Byte.x69] eq_refl) as (Hst & Hok & _).
  specialize (Hok eq_refl).
  destruct (remote_write_file friendly ascii_runtime "notes.txt" "hi"
              (start home_manager)) as [r st'].
  simpl in *. by subst.
Defined.

(** X11.  Writing and then reading the same candidate address the same
    remote path, over the same session: when the host accepts the upload and
    hands the same bytes back, and the codec round-trips the content, the
    read returns the content written, and the two calls issued are the
    [putfo] and the [getfo] on that path. *)
Theorem write_then_read (host : remote) (py : runtime) (path content : string)
    (st st1 : state) (full : PurePath) (data : bytes) :
  session_inv (fs st) →
  remote_connect host st = (Ok (), st1) →
  _validate_path (base_path (fs st)) (PStr path) = Ok full →
  encode_utf8 py content = Ok data →
  decode_utf8 py data = Ok content →
  putfo_reply host (pathlib.str full) data = Ok () →
  getfo_reply host (pathlib.str full) = Ok data →
  ∃ st2 st3 mime,
    remote_write_file host py path content st = (Ok (), st2)
    ∧ remote_read_file host py path st2 = (Ok (content, mime), st3)
    ∧ log st3 = log st1 ++ [Putfo (pathlib.str full) data;
                            Getfo (pathlib.str full)].
Proof.
  intros Hinv Hconn Hfull Henc Hdec Hput Hget.
  pose proof (remote_connect_ok_subchannel host st st1 Hinv Hconn) as Hsub.
  pose proof (remote_connect_ok_transport host st st1 Hconn) as Hact.
  pose proof (remote_connect_config host st) as (_ & _ & _ & _ & _ & Hbase).
  rewrite Hconn in Hbase. simpl in Hbase.
  set (st2 := logged (Putfo (pathlib.str full) data) st1).
  assert (Hconn2 : remote_connect host st2 = (Ok (), st2)).
  { rewrite remote_connect_eq. simpl. by rewrite Hact. }
  assert (Hinv2 : session_inv (fs st2)) by (by intros _).
  exists st2, (logged (Getfo (pathlib.str full)) st2). eexists.
  split.
  - rewrite (remote_write_file_eq host py path content st st1 full) by done.
    by rewrite Henc, Hput.
  - split.
    + rewrite (remote_read_file_eq host py path st2 st2 full);
        [|done|done|simpl; by rewrite Hbase].
      by rewrite Hget, Hdec.
    + simpl. by rewrite <- app_assoc.
Qed.

Lemma write_then_read_witness :
  let echo :=
    mkRemote (λ _, Ok ()) (Ok ()) (λ _, Ok [Byte.x68; Byte.x69])
             (λ _ _, Ok ()) (λ _, Ok []) (λ _, Raise (FileNotFoundError ""))
             (λ _, Raise (SSHException "")) in
  ∃ st2 st3 mime,
    remote_write_file echo ascii_runtime "notes.txt" "hi" (start home_manager)
    = (Ok (), st2)
    ∧ remote_read_file echo ascii_runtime "notes.txt" st2 = (Ok ("hi", mime), st3).
Proof.
  simpl.
  assert (Hinv : session_inv (fs (start home_manager))) by (intros H; discriminate H).
  destruct (write_then_read
              (mkRemote (λ _, Ok ()) (Ok ()) (λ _, Ok [Byte.x68; Byte.x69])
                 (λ _ _, Ok ()) (λ _, Ok []) (λ _, Raise (FileNotFoundError ""))
                 (λ _, Raise (SSHException "")))
              ascii_runtime "notes.txt" "hi" (start home_manager)
              (mkState (set_sftp_client (Some (mkSftp 0))
                          (set_ssh_client (Some (mkClient 0 (Some true)))
                             home_manager))
                 [Connect (make_connect_kwargs home_manager); OpenSftp] 1)
              (mkPath "/" ["home"; "u"; "notes.txt"]) [Byte.x68; Byte.x69]
              Hinv eq_refl eq_refl eq_refl eq_refl eq_refl eq_refl)
    as (st2 & st3 & mime & Hw & Hr & _).
  by exists st2, st3, mime.
Defined.

(** ** Listing *)

(** X12.  On a live session, for the empty path or a confined one,
    [remote_list_directory] asks for the entries of the confined path once
    and returns one item per entry in the order the host gives them: the
    name, mode and modification time are the entry's, a directory has no
    size and a file has the entry's size. *)
Theorem remote_list_directory_items (host : remote) (path : string)
    (st st1 : state) (full : PurePath) (attrs : list SFTPAttributes) :
  session_inv (fs st) →
  remote_connect host st = (Ok (), st1) →
  _validate_path (base_path (fs st)) (PStr path) = Ok full →
  listdir_attr_reply host (pathlib.str full) = Ok attrs →
  ∃ items,
    remote_list_directory host path st
    = (Ok items, logged (ListdirAttr (pathlib.str full)) st1)
    ∧ length items = length attrs
    ∧ map item_name items = map filename attrs
    ∧ map item_permissions items = map st_mode attrs
    ∧ map item_modified items = map st_mtime attrs
    ∧ ∀ i item attr, items !! i = Some item → attrs !! i = Some attr →
        (item_type item = directory ↔ S_ISDIR (st_mode attr) = true)
        ∧ (item_type item = directory → item_size item = None)
        ∧ (item_type item = file → item_size item = Some (st_size attr)).
Proof.
  intros Hinv Hconn Hfull Hreply.
  pose proof (remote_connect_config host st) as (_ & _ & _ & _ & _ & Hbase).
  rewrite Hconn in Hbase. simpl in Hbase.
  exists (map (make_item path) attrs). split.
  - unfold remote_list_directory, mbind, M_bind. rewrite Hconn.
    case_bool_decide as Hp.
    + subst path. rewrite validate_path_empty in Hfull. injection Hfull as <-.
      unfold get_fs, mret, M_ret, try_except. rewrite Hbase.
      rewrite on_sftp_live by (by eapply remote_connect_ok_subchannel).
      by rewrite Hreply.
    + rewrite (connect_then_validate host path st st1 Hconn), Hfull.
      unfold try_except.
      rewrite on_sftp_live by (by eapply remote_connect_ok_subchannel).
      by rewrite Hreply.
  - rewrite length_map, !map_map. split_and!; try done.
    intros i item attr Hitem Hattr.
    rewrite list_lookup_fmap, Hattr in Hitem. injection Hitem as <-.
    unfold make_item. simpl. destruct (S_ISDIR (st_mode attr)); by split_and!.
Qed.

Lemma remote_list_directory_items_witness :
  ∃ items,
    fst (remote_list_directory friendly "pub" (start home_manager)) = Ok items
    ∧ map item_name items = ["a"; "b"]
    ∧ map item_size items = [Some 10; None].
Proof.
  assert (Hinv : session_inv (fs (start home_manager))) by (intros H; discriminate H).
  destruct (remote_list_directory_items friendly "pub" (start home_manager)
              (snd (remote_connect friendly (start home_manager)))
              (mkPath "/" ["home"; "u"; "pub"]) sample_attrs
              Hinv eq_refl eq_refl eq_refl) as (items & Hlist & _ & Hnames & _).
  exists items. rewrite Hlist. split; [done|]. split; [exact Hnames|].
  vm_compute in Hlist. by injection Hlist as <-.
Defined.

(** ** Searching, continued *)

Lemma search_entry_live (host : remote) (file_path : string) (st : state) :
  has_active_subchannel (fs st) = true →
  search_entry host file_path st
  = (Ok (found_of host (pathlib.str (base_path (fs st))) file_path),
     if decide (nonblank file_path) then logged (Stat file_path) st else st).
Proof.
  intros Hlive. unfold search_entry, found_of.
  destruct (decide (nonblank file_path)) as [Hnb|Hb]; unfold nonblank in *.
  - rewrite Hnb. unfold try_except, mbind, M_bind.
    rewrite on_sftp_live by done. by destruct (stat_reply host file_path).
  - by destruct (Str.strip_is_empty file_path).
Qed.

(** The loop over the lines, on a live session. *)
Lemma search_loop_live (host : remote) (file_list : list string)
    (results : list found_item) (st : state) :
  has_active_subchannel (fs st) = true →
  search_loop host file_list results st
  = (Ok (results ++ omap (found_of host (pathlib.str (base_path (fs st)))) file_list),
     mkState (fs st) (log st ++ map Stat (filter nonblank file_list))
             (clients_made st)).
Proof.
  revert results st.
  induction file_list as [|file_path rest IH]; intros results st Hlive.
  { simpl. rewrite !app_nil_r. by destruct st. }
  cbn [search_loop]. unfold mbind, M_bind.
  rewrite search_entry_live by done. cbn [omap list_omap].
  destruct (decide (nonblank file_path)) as [Hnb|Hb].
  - rewrite filter_cons_True by done. rewrite IH by done. simpl.
    rewrite <- !app_assoc. simpl.
    destruct (found_of host _ file_path); [|done].
    by rewrite <- app_assoc.
  - rewrite filter_cons_False by done. rewrite IH by done.
    unfold nonblank in Hb. unfold found_of.
    by destruct (Str.strip_is_empty file_path).
Qed.

Lemma omap_length_le {A B} (f : A → option B) (l : list A) :
  (length (omap f l) ≤ length l)%nat.
Proof.
  induction l as [|x l IH]; [done|]. cbn [omap list_omap].
  destruct (f x); simpl; lia.
Qed.

(** X13.  Once the output of [find] is read and decoded, a search on a live
    session cannot fail: it stats every non-blank line in order, drops the
    lines whose [stat] fails, and returns the items of the others, at most
    one per line.  With an empty [path] the command searches the base
    path. *)
Theorem remote_search_files_result (host : remote) (py : runtime)
    (pattern path : string) (st st1 : state) (ch : exec_channels)
    (output : string) :
  let base_str := pathlib.str (base_path (fs st)) in
  let command :=
    find_command (if bool_decide (path = "") then base_str else path) pattern in
  let lines := Str.splitlines output in
  session_inv (fs st) →
  remote_connect host st = (Ok (), st1) →
  exec_command_reply host command = Ok ch →
  decode_utf8 py (stdout_data ch) = Ok output →
  remote_search_files host py pattern path st
  = (Ok (omap (found_of host base_str) lines),
     mkState (fs st1)
             (log st1 ++ ExecCommand command :: map Stat (filter nonblank lines))
             (clients_made st1))
  ∧ (length (omap (found_of host base_str) lines) ≤ length lines)%nat.
Proof.
  intros base_str command lines Hinv Hconn Hreply Hdec.
  split; [|apply omap_length_le].
  pose proof (remote_connect_config host st) as (_ & _ & _ & _ & _ & Hbase).
  rewrite Hconn in Hbase. simpl in Hbase.
  unfold remote_search_files, mbind, M_bind, get_fs. fold base_str command.
  rewrite Hconn.
  rewrite exec_command_live by (by eapply remote_connect_ok_transport).
  rewrite Hreply. unfold lift. rewrite Hdec. fold lines.
  rewrite search_loop_live
    by (change (has_active_subchannel (fs st1) = true);
        by eapply remote_connect_ok_subchannel).
  simpl. rewrite Hbase. fold base_str. by rewrite <- app_assoc.
Qed.

Lemma remote_search_files_result_witness :
  remote_search_files finder ascii_runtime "x" "" (start home_manager)
  = (Ok [mkFound "x.txt" "docs/x.txt" file (Some 10)],
     mkState (fs (snd (remote_connect finder (start home_manager))))
       (log (snd (remote_connect finder (start home_manager)))
        ++ [ExecCommand
              "find /home/u -name '*x*' -type f -o -name '*x*' -type d 2>/dev/null";
            Stat "/home/u/docs/x.txt"; Stat "/home/u/gone"]) 1).
Proof.
  assert (Hinv : session_inv (fs (start home_manager))) by (intros H; discriminate H).
  destruct (remote_search_files_result finder ascii_runtime "x" ""
              (start home_manager)
              (snd (remote_connect finder (start home_manager)))
              (mkChannels
                 (String.list_byte_of_string "/home/u/docs/x.txt"
                  ++ [Byte.x0a; Byte.x0a]
                  ++ String.list_byte_of_string "/home/u/gone"
                  ++ [Byte.x0a]) [] 0)
              (String.string_of_list_byte
                 (String.list_byte_of_string "/home/u/docs/x.txt"
                  ++ [Byte.x0a; Byte.x0a]
                  ++ String.list_byte_of_string "/home/u/gone"
                  ++ [Byte.x0a]))
              Hinv eq_refl eq_refl eq_refl) as [Hres _].
  rewrite Hres. by vm_compute.
Defined.

Lemma drop_app_length (a b : string) : Str.drop (String.length a) (a +:+ b) = b.
Proof. induction a as [|x a IH]; [by destruct b | exact IH]. Qed.

Lemma lstrip_unrooted (c : ascii) (s : string) :
  Str.startswith s (String c "") = false → Str.lstrip c s = s.
Proof.
  destruct s as [|a s]; [done|]. rewrite startswith_char. simpl. by intros ->.
Qed.

(** X14.  A reported path under the base path is returned relative to it:
    for the line [base/rel], with a base path other than [/], the item's
    path is [rel]; with the base path [/] the item's path is the line
    itself.  The item's name is the last component of the line. *)
Theorem search_entry_relative_path (host : remote) (st : state)
    (file_path rel : string) (stat_info : SFTPAttributes) :
  let base_str := pathlib.str (base_path (fs st)) in
  has_active_subchannel (fs st) = true →
  nonblank file_path →
  stat_reply host file_path = Ok stat_info →
  ∃ item,
    search_entry host file_path st = (Ok (Some item), logged (Stat file_path) st)
    ∧ found_name item = posixpath.basename file_path
    ∧ (base_str = "/" → found_path item = file_path)
    ∧ (base_str ≠ "/" → file_path = base_str +:+ "/" +:+ rel →
       Str.startswith rel "/" = false → found_path item = rel).
Proof.
  intros base_str Hlive Hnb Hstat. rewrite search_entry_live by done.
  rewrite decide_True by done. unfold found_of. fold base_str.
  unfold nonblank in Hnb. rewrite Hnb, Hstat. eexists. split; [reflexivity|].
  simpl. split; [done|]. split.
  - intros ->. by rewrite bool_decide_false by (by intros ?).
  - intros Hne -> Hrel. rewrite bool_decide_true by done.
    rewrite drop_app_length. simpl. by apply lstrip_unrooted.
Qed.

Lemma search_entry_relative_path_witness :
  let st := snd (remote_connect friendly (start home_manager)) in
  ∃ item,
    search_entry friendly "/home/u/docs/a.txt" st
    = (Ok (Some item), logged (Stat "/home/u/docs/a.txt") st)
    ∧ found_path item = "docs/a.txt".
Proof.
  simpl.
  destruct (search_entry_relative_path friendly
              (snd (remote_connect friendly (start home_manager)))
              "/home/u/docs/a.txt" "docs/a.txt"
              (mkAttr "a" 33188 10 1700000000) eq_refl eq_refl eq_refl)
    as (item & Hentry & _ & _ & Hrel).
  exists item. split; [exact Hentry|]. by apply Hrel.
Defined.

(** ** What the operations add to the log *)

Lemma on_sftp_log {A} (c : call) (reply : result A) (st : state) :
  ∃ l, log (snd (on_sftp c reply st)) = log st ++ l.
Proof.
  unfold on_sftp. run.
  destruct (_sftp_client (fs st)); [|exists []; by rewrite app_nil_r].
  destruct (has_active_subchannel (fs st)); [|exists []; by rewrite app_nil_r].
  destruct reply; by eexists.
Qed.

Lemma exec_command_log (host : remote) (command : string) (st : state) :
  ∃ l, log (snd (exec_command host command st)) = log st ++ l.
Proof.
  unfold exec_command. run.
  destruct (_ssh_client (fs st)) as [c|]; [|exists []; by rewrite app_nil_r].
  destruct (transport_is_active c); [|exists []; by rewrite app_nil_r].
  destruct (exec_command_reply host command); by eexists.
Qed.

(** Every operation starts with [remote_connect] and only adds to what it
    logged. *)
Lemma operations_log (host : remote) (py : runtime) (st : state) :
  (∀ path content,
     ∃ l, log (snd (remote_write_file host py path content st))
          = log (snd (remote_connect host st)) ++ l)
  ∧ (∀ path,
       ∃ l, log (snd (remote_list_directory host path st))
            = log (snd (remote_connect host st)) ++ l)
  ∧ (∀ pattern path,
       ∃ l, log (snd (remote_search_files host py pattern path st))
            = log (snd (remote_connect host st)) ++ l)
  ∧ (∀ command,
       ∃ l, log (snd (remote_execute_command host py command st))
            = log (snd (remote_connect host st)) ++ l).
Proof.
  assert (Hnil : ∀ l : list call, ∃ l', l = l ++ l')
    by (intros l; exists []; by rewrite app_nil_r).
  split_and!; intros.
  - unfold remote_write_file, validate. run.
    destruct (remote_connect host st) as [[[]|e] st1]; simpl; [|done].
    destruct (_validate_path _ _) as [full|e]; simpl; [|done].
    destruct (encode_utf8 py content) as [data|e]; simpl; [|by destruct e].
    destruct (on_sftp_log (Putfo (pathlib.str full) data)
                (putfo_reply host (pathlib.str full) data) st1) as [l Hl].
    exists l.
    destruct (on_sftp _ _ st1) as [[[]|e] st2]; simpl in *; [done|].
    by destruct e.
  - unfold remote_list_directory, validate. run.
    destruct (remote_connect host st) as [[[]|e] st1]; simpl; [|done].
    case_bool_decide; simpl.
    + destruct (on_sftp_log (ListdirAttr (pathlib.str (base_path (fs st1))))
                  (listdir_attr_reply host (pathlib.str (base_path (fs st1))))
                  st1) as [l Hl].
      exists l.
      destruct (on_sftp _ _ st1) as [[attrs|e] st2]; simpl in *; [done|].
      by destruct e.
    + destruct (_validate_path _ _) as [full|e]; simpl; [|done].
      destruct (on_sftp_log (ListdirAttr (pathlib.str full))
                  (listdir_attr_reply host (pathlib.str full)) st1) as [l Hl].
      exists l.
      destruct (on_sftp _ _ st1) as [[attrs|e] st2]; simpl in *; [done|].
      by destruct e.
  - unfold remote_search_files. run.
    destruct (remote_connect host st) as [[[]|e] st1]; simpl; [|done].
    destruct (exec_command_log host
      (find_command (if bool_decide (path = "")
                     then pathlib.str (base_path (fs st)) else path) pattern)
      st1) as [l Hl].
    destruct (exec_command host _ st1) as [[ch|e] st2]; simpl in *;
      [|by exists l].
    destruct (decode_utf8 py (stdout_data ch)) as [output|e]; simpl;
      [|by exists l].
    destruct (search_loop_log host (Str.splitlines output) [] st2) as [l2 Hl2].
    exists (l ++ l2). by rewrite Hl2, Hl, app_assoc.
  - unfold remote_execute_command. run.
    destruct (remote_connect host st) as [[[]|e] st1]; simpl; [|done].
    destruct (exec_command_log host command st1) as [l Hl]. exists l.
    destruct (exec_command host _ st1) as [[ch|e] st2]; simpl in *; [|done].
    destruct (decode_utf8 py (stdout_data ch)); simpl; [|done].
    by destruct (decode_utf8 py (stderr_data ch)).
Qed.

Lemma connect_first (host : remote) (st : state) :
  has_active_transport (fs st) = false →
  ∃ l, log (snd (remote_connect host st))
       = log st ++ Connect (make_connect_kwargs (fs st)) :: l.
Proof.
  intros Hdead. rewrite remote_connect_eq, Hdead. simpl.
  destruct (connect_reply host _); [|by eexists].
  destruct (open_sftp_reply host); by eexists.
Qed.

Lemma run_tool_snd {A B} (m : M A) (k : A → B) (st : state) :
  snd (run_tool m k st) = snd (m st).
Proof. unfold run_tool. by destruct (m st) as [[a|e] st']. Qed.

(** ** The dispatcher *)

Lemma run_tool_not_KeyError {A B} (m : M A) (k : A → B) (st : state) (key : string) :
  fst (run_tool m k st) ≠ Failed (KeyError key).
Proof. unfold run_tool. by destruct (m st) as [[a|e] st']. Qed.

Lemma listed_tool (t : Tool) :
  t ∈ list_tools →
  t = mkTool "remote_write_file" "원격 파일 작성"
        [("path", "string"); ("content", "string")] ["path"; "content"]
  ∨ t = mkTool "remote_search_files" "원격 파일 검색"
          [("pattern", "string"); ("path", "string")] ["pattern"]
  ∨ t = mkTool "remote_list_directory" "원격 디렉토리 내용 나열"
          [("path", "string")] []
  ∨ t = mkTool "remote_execute_command" "원격 서버에서 명령어 실행"
          [("command", "string")] ["command"].
Proof.
  unfold list_tools. rewrite !elem_of_cons, elem_of_nil. tauto.
Qed.

Lemma call_tool_list_snd (host : remote) (py : runtime)
    (arguments : gmap string string) (st : state) :
  snd (call_tool host py "remote_list_directory" arguments st)
  = snd (remote_list_directory host (get_default arguments "path" "") st).
Proof.
  unfold call_tool. do 2 (rewrite bool_decide_false by done).
  rewrite bool_decide_true by done. apply run_tool_snd.
Qed.

(** X15.  [call_tool] serves exactly the tools [list_tools] announces: a
    name is refused with the unknown-tool [ValueError], for all arguments
    and with the state untouched, if and only if it is not announced.
    [remote_read_file] is not announced, so reading is no tool. *)
Theorem call_tool_serves_listed_tools (host : remote) (py : runtime)
    (name : string) :
  (name ∉ map tool_name list_tools
   ↔ ∀ arguments st,
       call_tool host py name arguments st
       = (Failed (Raised (unknown_tool name)), st))
  ∧ "remote_read_file" ∉ map tool_name list_tools.
Proof.
  split.
  2:{ simpl. rewrite !not_elem_of_cons. split_and!; try done. apply not_elem_of_nil. }
  split.
  - intros Hname arguments st. unfold call_tool.
    rewrite !bool_decide_false; [done|..]; intros ->; apply Hname;
      simpl; rewrite !elem_of_cons; tauto.
  - intros Hrefused Hname. specialize (Hrefused ∅ (start home_manager)).
    simpl in Hname. rewrite !elem_of_cons, elem_of_nil in Hname.
    destruct Hname as [-> | [-> | [-> | [-> | Hnil ]]]]; [| | | |done];
      try discriminate Hrefused.
    apply (f_equal snd) in Hrefused. rewrite call_tool_list_snd in Hrefused.
    cbn [snd] in Hrefused. apply (f_equal log) in Hrefused.
    destruct (operations_log host py (start home_manager)) as (_ & Hl & _).
    destruct (Hl (get_default ∅ "path" "")) as [l Hlog]. rewrite Hlog in Hrefused.
    destruct (connect_first host (start home_manager) eq_refl) as [l' Hc].
    rewrite Hc in Hrefused. discriminate Hrefused.
Qed.

Lemma call_tool_serves_listed_tools_witness :
  ("remote_delete_file" ∉ map tool_name list_tools)
  ∧ call_tool friendly ascii_runtime "remote_delete_file" ∅ (start home_manager)
    = (Failed (Raised (ValueError "알 수 없는 도구: remote_delete_file")),
       start home_manager).
Proof.
  assert (Hname : "remote_delete_file" ∉ map tool_name list_tools).
  { simpl. rewrite !not_elem_of_cons. split_and!; try done. apply not_elem_of_nil. }
  split; [exact Hname|].
  exact (proj1 (proj1 (call_tool_serves_listed_tools friendly ascii_runtime
                         "remote_delete_file")) Hname ∅ (start home_manager)).
Defined.

(** X16.  The [required] lists of the input schemas are the subscripts of
    [call_tool]: for an announced tool, a missing required argument raises
    [KeyError] on a required key and leaves the state untouched (not even a
    connection is attempted); with every required argument present no
    [KeyError] is raised, whatever optional arguments are missing, and the
    manager is reached: without an active transport the first call issued
    is the connection. *)
Theorem call_tool_required_arguments (host : remote) (py : runtime)
    (t : Tool) (arguments : gmap string string) (st : state) :
  t ∈ list_tools →
  (∀ key, key ∈ tool_required t → arguments !! key = None →
     ∃ k, k ∈ tool_required t
          ∧ call_tool host py (tool_name t) arguments st
            = (Failed (KeyError k), st))
  ∧ ((∀ key, key ∈ tool_required t → is_Some (arguments !! key)) →
     (∀ k, fst (call_tool host py (tool_name t) arguments st)
           ≠ Failed (KeyError k))
     ∧ (has_active_transport (fs st) = false →
        ∃ l, log (snd (call_tool host py (tool_name t) arguments st))
             = log st ++ Connect (make_connect_kwargs (fs st)) :: l)).
Proof.
  intros Ht. apply listed_tool in Ht.
  assert (Hreach : ∀ l1, has_active_transport (fs st) = false →
            ∃ l, log (snd (remote_connect host st)) ++ l1
                 = log st ++ Connect (make_connect_kwargs (fs st)) :: l).
  { intros l1 Hdead. destruct (connect_first host st Hdead) as [l ->].
    exists (l ++ l1). by rewrite <- app_assoc. }
  destruct (operations_log host py st) as (Hw & Hl & Hs & He).
  destruct Ht as [-> | [-> | [-> | ->]]]; simpl; unfold call_tool, subscript; simpl.
  - split.
    + intros key Hkey Hnone.
      destruct (arguments !! "path") eqn:Hp.
      * destruct (arguments !! "content") eqn:Hc.
        -- rewrite !elem_of_cons, elem_of_nil in Hkey.
           destruct Hkey as [-> | [-> | Hnil ]]; [congruence | congruence | done].
        -- exists "content". split; [|done]. rewrite !elem_of_cons. tauto.
      * exists "path". split; [|done]. rewrite !elem_of_cons. tauto.
    + intros Hall.
      destruct (Hall "path") as [p ->]; [rewrite !elem_of_cons; tauto|].
      destruct (Hall "content") as [c ->]; [rewrite !elem_of_cons; tauto|].
      split; [intros k; apply run_tool_not_KeyError|].
      intros Hdead. rewrite run_tool_snd.
      destruct (Hw p c) as [l1 ->]. by apply Hreach.
  - split.
    + intros key Hkey Hnone. rewrite !elem_of_cons, elem_of_nil in Hkey.
      destruct Hkey as [-> | Hnil ]; [|done]. rewrite Hnone.
      exists "pattern". split; [|done]. rewrite !elem_of_cons. tauto.
    + intros Hall.
      destruct (Hall "pattern") as [p ->]; [rewrite !elem_of_cons; tauto|].
      split; [intros k; apply run_tool_not_KeyError|].
      intros Hdead. rewrite run_tool_snd.
      destruct (Hs p (get_default arguments "path" "")) as [l1 ->].
      by apply Hreach.
  - split.
    + intros key Hkey. by apply elem_of_nil in Hkey.
    + intros _. split; [intros k; apply run_tool_not_KeyError|].
      intros Hdead. rewrite run_tool_snd.
      destruct (Hl (get_default arguments "path" "")) as [l1 ->].
      by apply Hreach.
  - split.
    + intros key Hkey Hnone. rewrite !elem_of_cons, elem_of_nil in Hkey.
      destruct Hkey as [-> | Hnil ]; [|done]. rewrite Hnone.
      exists "command". split; [|done]. rewrite !elem_of_cons. tauto.
    + intros Hall.
      destruct (Hall "command") as [c ->]; [rewrite !elem_of_cons; tauto|].
      split; [intros k; apply run_tool_not_KeyError|].
      intros Hdead. rewrite run_tool_snd.
      destruct (He c) as [l1 ->]. by apply Hreach.
Qed.

Lemma call_tool_required_arguments_witness :
  call_tool friendly ascii_runtime "remote_write_file"
    {["path" := "notes.txt"]} (start home_manager)
  = (Failed (KeyError "content"), start home_manager).
Proof.
  assert (Ht : mkTool "remote_write_file" "원격 파일 작성"
                 [("path", "string"); ("content", "string")] ["path"; "content"]
               ∈ list_tools) by (unfold list_tools; rewrite !elem_of_cons; tauto).
  destruct (call_tool_required_arguments friendly ascii_runtime _
              {["path" := "notes.txt"]} (start home_manager) Ht) as [Hmiss _].
  destruct (Hmiss "content") as (k & _ & Hcall).
  - simpl. rewrite !elem_of_cons. tauto.
  - by vm_compute.
  - simpl in Hcall. rewrite Hcall. vm_compute in Hcall. by injection Hcall as ->.
Defined.

Lemma list_line_head (r : dir_item) : ∃ rest, list_line r = String "[" rest.
Proof. unfold list_line. by eexists. Qed.

Lemma join_lines_nonempty (items : list dir_item) :
  items ≠ [] → Str.join newline (map list_line items) ≠ "".
Proof.
  destruct items as [|r items]; [done|]. intros _.
  destruct (list_line_head r) as [rest Hr]. simpl. rewrite Hr.
  by destruct (map list_line items).
Qed.

(** X17.  The answer of the [remote_list_directory] tool: without a [path]
    argument the base path is listed; the text has one line per item, in
    order, and an empty listing is answered by the fixed message.  A line
    shows the size of a file, except that an empty file is shown as [DIR],
    like a directory. *)
Theorem call_tool_list_text (host : remote) (py : runtime)
    (arguments : gmap string string) (st st' : state) (items : list dir_item) :
  remote_list_directory host (default "" (arguments !! "path")) st
  = (Ok items, st') →
  ∃ answer,
    call_tool host py "remote_list_directory" arguments st
    = (Returned [mkText "text" answer], st')
    ∧ (items = [] → answer = "디렉토리가 비어있거나 접근할 수 없습니다.")
    ∧ (items ≠ [] → answer = Str.join newline (map list_line items))
    ∧ (∀ item, item ∈ items →
         (item_size item = None ∨ item_size item = Some 0 →
          list_line item = "[" +:+ entry_type_str (item_type item) +:+ "] "
                           +:+ item_path item +:+ " (DIR)")
         ∧ (∀ n, item_size item = Some n → n ≠ 0 →
              list_line item = "[" +:+ entry_type_str (item_type item) +:+ "] "
                               +:+ item_path item +:+ " (" +:+ pretty n +:+ ")")).
Proof.
  intros Hlist. eexists. split.
  { unfold call_tool, run_tool, get_default. simpl. by rewrite Hlist. }
  split; [by intros ->|]. split.
  - intros Hne. unfold or_else.
    by rewrite bool_decide_false by (by apply join_lines_nonempty).
  - intros item _. unfold list_line, size_or_DIR. split.
    + by intros [->| ->].
    + intros n -> Hn. by rewrite (proj2 (Z.eqb_neq n 0) Hn).
Qed.

Lemma call_tool_list_text_witness :
  fst (call_tool log_dir ascii_runtime "remote_list_directory" ∅
         (start home_manager))
  = Returned [mkText "text" ("[file] empty.log (DIR)" +:+ newline
                             +:+ "[file] big.log (2048)")].
Proof.
  assert (Hlist :
    remote_list_directory log_dir
      (default "" ((∅ : gmap string string) !! "path")) (start home_manager)
    = (Ok (map (make_item "")
             [mkAttr "empty.log" 33188 0 1700000000;
              mkAttr "big.log" 33188 2048 1700000000]),
       logged (ListdirAttr "/home/u")
              (snd (remote_connect log_dir (start home_manager)))))
    by (by vm_compute).
  pose proof (call_tool_list_text log_dir ascii_runtime ∅ (start home_manager)
                _ _ Hlist) as Htext.
  destruct Htext as (answer & Hcall & _ & Hlines & _).
  rewrite Hcall. cbn [fst]. rewrite (Hlines ltac:(done)). by vm_compute.
Defined.

(** ** Shutdown and start-up *)

(** X18.  However the serving loop ends, normally or by an exception, [main]
    closes the session on its way out: the manager ends disconnected, with
    its configuration as the loop left it; the loop's result or exception is
    the one [main] ends with, and the only calls added are the two
    closings, when there is something to close. *)
Theorem serve_and_close_disconnects (run_stdio : M unit) (st : state) :
  let served := snd (run_stdio st) in
  let final := snd (serve_and_close run_stdio st) in
  fst (serve_and_close run_stdio st) = fst (run_stdio st)
  ∧ disconnected (fs final)
  ∧ session_inv (fs final)
  ∧ same_config (fs served) (fs final)
  ∧ log final = log served
                ++ (if _sftp_client (fs served) is Some _ then [SftpClose] else [])
                ++ (if _ssh_client (fs served) is Some _ then [SshClose] else []).
Proof.
  simpl. unfold serve_and_close, try_finally.
  destruct (run_stdio st) as [r served]. rewrite remote_close_eq. simpl.
  split_and!; done.
Qed.

Lemma lookup_config (args : cli_args) :
  dict_get (config_of_args args) "hostname" = opt_str (arg_hostname args)
  ∧ dict_get (config_of_args args) "username" = opt_str (arg_username args)
  ∧ dict_get (config_of_args args) "password" = opt_str (arg_password args)
  ∧ dict_get (config_of_args args) "key_filename" = opt_str (arg_key_file args).
Proof.
  unfold dict_get, config_of_args.
  split_and!; repeat (rewrite lookup_insert_ne by done);
    by rewrite lookup_insert_eq.
Qed.

Lemma truthy_opt_str (o : option string) :
  truthy (opt_str o) = true ↔ is_Some (truthy_str o).
Proof.
  destruct o as [s|]; simpl.
  - case_bool_decide; simpl; split; try done; by intros [? ?].
  - split; [done|]. by intros [? ?].
Qed.

(** X19.  Started from the command line without [--config], [main] passes
    its checks exactly when a non-empty host name, a non-empty user name and
    a non-empty password or key file are given; the port and the base path
    play no part, an empty string counts as missing, and with no option at
    all the host name is the first complaint. *)
Theorem check_config_of_args (args : cli_args) :
  (check_config (config_of_args args) = Ok ()
   ↔ is_Some (truthy_str (arg_hostname args))
     ∧ is_Some (truthy_str (arg_username args))
     ∧ (is_Some (truthy_str (arg_password args))
        ∨ is_Some (truthy_str (arg_key_file args))))
  ∧ check_config (config_of_args default_args) = Raise hostname_required
  ∧ (arg_hostname args = Some "" →
     check_config (config_of_args args) = Raise hostname_required).
Proof.
  destruct (lookup_config args) as (Hh & Hu & Hp & Hk).
  split; [|split].
  - unfold check_config. rewrite Hh, Hu, Hp, Hk.
    rewrite <- !truthy_opt_str.
    destruct (truthy (opt_str (arg_hostname args))),
             (truthy (opt_str (arg_username args))),
             (truthy (opt_str (arg_password args))),
             (truthy (opt_str (arg_key_file args))); simpl;
      split; try done; try tauto; intros (? & ? & [?|?]); done.
  - destruct (lookup_config default_args) as (Hh' & _). unfold check_config.
    by rewrite Hh'.
  - intros Hempty. unfold check_config. by rewrite Hh, Hempty.
Qed.

Lemma check_config_of_args_witness :
  check_config (config_of_args
                  (mkArgs None (Some "example.org") 2222 (Some "alice") None
                          (Some "/home/alice/.ssh/id_rsa") "/srv"))
  = Ok ()
  ∧ check_config (config_of_args
                    (mkArgs None (Some "") 22 (Some "alice") (Some "pw") None "/"))
    = Raise hostname_required.
Proof.
  destruct (check_config_of_args
              (mkArgs None (Some "example.org") 2222 (Some "alice") None
                      (Some "/home/alice/.ssh/id_rsa") "/srv")) as [Hok _].
  destruct (check_config_of_args
              (mkArgs None (Some "") 22 (Some "alice") (Some "pw") None "/"))
    as (_ & _ & Hempty).
  split; [|by apply Hempty].
  apply Hok. simpl. split_and!; [by eexists | by eexists | right; by eexists].
Defined.

(** ** Reading what was listed *)




(** ** Refusals seen through the tools *)

(** X21.  A path that [_validate_path] rejects is refused to the caller of
    the [remote_write_file] and [remote_list_directory] tools with the
    access-denied [ValueError] once the session is up, and nothing is
    uploaded or listed: the state is the one [remote_connect] left. *)
Theorem call_tool_rejects_escape (host : remote) (py : runtime)
    (arguments : gmap string string) (path content : string)
    (st st1 : state) (e : exn) :
  arguments !! "path" = Some path → path ≠ "" →
  remote_connect host st = (Ok (), st1) →
  _validate_path (base_path (fs st)) (PStr path) = Raise e →
  e = access_denied (base_path (fs st))
  ∧ call_tool host py "remote_list_directory" arguments st
    = (Failed (Raised e), st1)
  ∧ (arguments !! "content" = Some content →
     call_tool host py "remote_write_file" arguments st
     = (Failed (Raised e), st1)).
Proof.
  intros Hpath Hne Hconn Hrej.
  split; [by eapply validate_path_raises|].
  pose proof (connect_then_validate host path st st1 Hconn) as Hval.
  rewrite Hrej in Hval.
  unfold call_tool, run_tool, subscript, get_default. simpl. rewrite Hpath. simpl.
  split.
  - unfold remote_list_directory, mbind, M_bind. rewrite Hconn.
    rewrite bool_decide_false by done. by rewrite Hval.
  - intros ->. unfold remote_write_file, mbind, M_bind. by rewrite Hconn, Hval.
Qed.

Lemma call_tool_rejects_escape_witness :
  call_tool friendly ascii_runtime "remote_write_file"
    {["path" := "/etc/cron.d/job"; "content" := "x"]} (start home_manager)
  = (Failed (Raised (ValueError
       "Invalid path: Access denied. Path must be within /home/u")),
     snd (remote_connect friendly (start home_manager))).
Proof.
  assert (Hpath : ({["path" := "/etc/cron.d/job"; "content" := "x"]}
                   : gmap string string) !! "path" = Some "/etc/cron.d/job")
    by (by vm_compute).
  assert (Hcontent : ({["path" := "/etc/cron.d/job"; "content" := "x"]}
                      : gmap string string) !! "content" = Some "x")
    by (by vm_compute).
  assert (Hne : "/etc/cron.d/job" ≠ "") by done.
  pose proof (call_tool_rejects_escape friendly ascii_runtime _
                "/etc/cron.d/job" "x" (start home_manager)
                (snd (remote_connect friendly (start home_manager)))
                (access_denied (pathlib.Path "/home/u"))
                Hpath Hne eq_refl eq_refl) as (_ & _ & Hwrite).
  exact (Hwrite Hcontent).
Defined.

(** ** Listing resources *)

Lemma make_resources_Ok (py : runtime) (h : string) (items : list dir_item)
    (rs : list Resource) :
  make_resources py h items = Ok rs →
  Forall2 (λ item r, make_resource py h item = Ok r) items rs.
Proof.
  revert rs. induction items as [|item items IH]; intros rs; simpl.
  - intros [= <-]. constructor.
  - destruct (make_resource py h item) as [r|e] eqn:Hr; [|done].
    destruct (make_resources py h items) as [rs'|e]; [|done].
    intros [= <-]. constructor; [done|]. by apply IH.
Qed.

Lemma make_resources_names (py : runtime) (h : string) (items : list dir_item)
    (rs : list Resource) :
  make_resources py h items = Ok rs → map name rs = map item_name items.
Proof.
  intros Hrs. apply make_resources_Ok in Hrs.
  induction Hrs as [|item r items rs Hr _ IH]; [done|]. simpl.
  destruct (make_resource_Ok _ _ _ _ Hr) as (_ & -> & _). by rewrite IH.
Qed.

Lemma make_resources_total (py : runtime) (h : string) (items : list dir_item) :
  Forall (λ item, is_ok (make_resource py h item) = true) items →
  is_ok (make_resources py h items) = true.
Proof.
  induction 1 as [|item items Hitem _ IH]; simpl; [done|].
  destruct (make_resource py h item); [|done].
  by destruct (make_resources py h items).
Qed.

Lemma make_resources_Raise (py : runtime) (h : string) (items : list dir_item)
    (item : dir_item) :
  item ∈ items → is_ok (make_resource py h item) = false →
  is_ok (make_resources py h items) = false.
Proof.
  intros Hin Hitem. induction Hin as [item items|item item' items _ IH]; simpl.
  - by destruct (make_resource py h item).
  - destruct (make_resource py h item'); [|done].
    specialize (IH Hitem). by destruct (make_resources py h items).
Qed.

Lemma list_resources_eq (host : remote) (py : runtime) (st st1 : state)
    (attrs : list SFTPAttributes) :
  session_inv (fs st) →
  remote_connect host st = (Ok (), st1) →
  listdir_attr_reply host (pathlib.str (base_path (fs st))) = Ok attrs →
  list_resources host py st
  = (make_resources py (hostname (fs st)) (map (make_item "") attrs),
     logged (ListdirAttr (pathlib.str (base_path (fs st)))) st1).
Proof.
  intros Hinv Hconn Hreply.
  pose proof (remote_connect_config host st) as (Hhost & _ & _ & _ & _ & Hbase).
  rewrite Hconn in Hhost, Hbase. simpl in Hhost, Hbase.
  unfold list_resources, remote_list_directory, mbind, M_bind.
  rewrite Hconn. simpl. unfold get_fs, mret, M_ret, try_except. rewrite Hbase.
  rewrite on_sftp_live by (by eapply remote_connect_ok_subchannel).
  rewrite Hreply. simpl. by rewrite Hhost.
Qed.

(** X22.  On a live session whose host lists the base path,
    [list_resources] lists the directory once and makes one resource per
    entry, in the host's order.  It returns when a URL can be made of every
    identifier, and raises when one cannot.  A resource it returns is named
    after its entry and identified by the URL of
    [ssh://<hostname>/<name>]; a directory has the media type
    [inode/directory], and a file has the guessed type or [text/plain],
    never an empty one. *)
Theorem list_resources_entries (host : remote) (py : runtime) (st st1 : state)
    (attrs : list SFTPAttributes) :
  session_inv (fs st) →
  remote_connect host st = (Ok (), st1) →
  listdir_attr_reply host (pathlib.str (base_path (fs st))) = Ok attrs →
  let identifier a := resource_uri (hostname (fs st)) (filename a) in
  snd (list_resources host py st)
  = logged (ListdirAttr (pathlib.str (base_path (fs st)))) st1
  ∧ ((∀ a, a ∈ attrs → is_ok (any_url py (identifier a)) = true) →
     is_ok (fst (list_resources host py st)) = true)
  ∧ (∀ a, a ∈ attrs → is_ok (any_url py (identifier a)) = false →
     is_ok (fst (list_resources host py st)) = false)
  ∧ ∀ resources, fst (list_resources host py st) = Ok resources →
      map name resources = map filename attrs
      ∧ ∀ i r a, resources !! i = Some r → attrs !! i = Some a →
          any_url py (identifier a) = Ok (uri r)
          ∧ mimeType r ≠ ""
          ∧ (S_ISDIR (st_mode a) = true → mimeType r = "inode/directory")
          ∧ (S_ISDIR (st_mode a) = false →
             mimeType r = mime_or_plain (guess_type py (filename a))).
Proof.
  intros Hinv Hconn Hreply identifier.
  rewrite (list_resources_eq host py st st1 attrs) by done. simpl.
  split; [done|]. split_and!.
  - intros Hall. apply make_resources_total, Forall_fmap, Forall_forall.
    intros a Ha. specialize (Hall a Ha). simpl. unfold make_resource.
    change (item_path (make_item "" a)) with (filename a).
    fold (identifier a). by destruct (any_url py (identifier a)).
  - intros a Ha Hbad.
    apply (make_resources_Raise py _ _ (make_item "" a)).
    + apply list_elem_of_fmap. by exists a.
    + unfold make_resource. change (item_path (make_item "" a)) with (filename a).
      fold (identifier a). by destruct (any_url py (identifier a)).
  - intros resources Hres. split.
    + rewrite (make_resources_names _ _ _ _ Hres). clear.
      induction attrs as [|a attrs IH]; [done|]. simpl. by rewrite <- IH.
    + apply make_resources_Ok, Forall2_fmap_l in Hres.
      intros i r a Hr Ha.
      pose proof (Forall2_lookup_lr _ _ _ _ _ _ Hres Ha Hr) as Hmake.
      simpl in Hmake.
      destruct (make_resource_Ok _ _ _ _ Hmake) as (Hurl & _ & Hmime).
      split; [exact Hurl|]. rewrite Hmime. unfold make_item. simpl.
      destruct (S_ISDIR (st_mode a)); simpl; split_and!; try done.
      unfold mime_or_plain. destruct (guess_type py (filename a)) as [m|]; [|done].
      by case_bool_decide.
Qed.

Lemma list_resources_entries_witness :
  ∃ resources,
    fst (list_resources friendly ascii_runtime (start home_manager)) = Ok resources
    ∧ map name resources = ["a"; "b"]
    ∧ map uri resources = ["ssh://example.org/a"; "ssh://example.org/b"].
Proof.
  assert (Hinv : session_inv (fs (start home_manager))) by (intros H; discriminate H).
  destruct (list_resources_entries friendly ascii_runtime (start home_manager)
              (snd (remote_connect friendly (start home_manager)))
              sample_attrs Hinv eq_refl eq_refl)
    as (_ & _ & _ & Hres).
  exists [mkResource "ssh://example.org/a" "a" "text/plain" "File: a";
          mkResource "ssh://example.org/b" "b" "inode/directory" "Directory: b"].
  split; [reflexivity|].
  destruct (Hres _ eq_refl) as [Hnames _].
  split; [exact Hnames | reflexivity].
Defined.
